(** * SingleInstanceBrowser: the renderer's URL pipeline and the settings loader

    A shallow embedding of [CRendererApplication] (the renderer class: handler
    chain, history cursor, navigation events, permission hook) and of
    [getSettings] / [getDefaultSettings] (shared/Settings.ts), with the
    properties of the specification settled against them.

    Conventions.  A method of the class is a function on the record
    [Renderer], which holds the fields of the class that the modelled methods
    read or write, the properties of the DOM and Electron objects they
    assign, the queue of pending timers and the trace of calls that leave the
    class (console, URL handlers, the session).  A method that can end by an
    exception returns a [Completion] next to the state. *)

From Stdlib Require Import ZArith Lia List String Ascii Bool.
From stdpp Require Import base tactics option list strings pretty.
Import ListNotations.

Local Open Scope Z_scope.

#[local] Set Warnings "-register-all".

(** ** JavaScript values used by both parts *)

Module JS.

(** Truthiness of a string: only the empty string is falsy. *)
Definition truthy (s : string) : bool := negb (String.eqb s "").

(** [Array.prototype.indexOf]: the first index whose element is strictly
    equal to the one searched for ([same] decides that), or [-1]. *)
Fixpoint indexOf {A : Type} (same : A -> bool) (l : list A) : Z :=
  match l with
  | [] => -1
  | y :: l' =>
      if same y then 0
      else let i := indexOf same l' in
           if i <? 0 then -1 else i + 1
  end.

(** Array read [l[i]] for an integer [i]: [undefined] out of range. *)
Definition index {A : Type} (l : list A) (i : Z) : option A :=
  if i <? 0 then None else l !! Z.to_nat i.

(** A number in a template literal. *)
Definition numberToString (z : Z) : string := pretty z.

(** How a method ends: normally, or with an exception that leaves it. *)
Inductive Completion : Type :=
| Normal
| Thrown (error : string).

Definition TypeError : string := "TypeError".

End JS.

Import JS.

(** ** shared/URLItem *)

Module URLItem.

(** Modelled from the spec: shared/URLItem.ts is not among the sources.  The
    provenance tags are those of the data model ([User], [Page], [App],
    [HandlerRedirect]); the class under study names [URLSource.APP],
    [URLSource.USER] and [URLSource.PAGE]. *)
Inductive URLSource : Type :=
| USER
| PAGE
| APP
| HANDLER_REDIRECT.

Record IURLItem : Type := {
  DoLoad : bool;
  URL : string;
  OriginalURL : string;
  Source : URLSource
}.

End URLItem.

Import URLItem.

(** ** URL handlers *)

(** What one call of [handleURL(url, source, callback)] does, as far as the
    renderer can tell: it calls [callback] some number of times, each time
    with a result code and an optional redirect URL, and then returns or
    throws.  A handler that keeps the contract calls back exactly once and
    does not throw. *)
Record HandlerRun : Type := {
  callbacks : list (Z * option string);
  raises : option string
}.

(** ** What the renderer imports from modules that are not among the sources *)

(** Modelled from the spec: [HandleURL] (URLHandler.ts) gives the four result
    codes, of which the sources under study only show the names, and
    [getURLItem] (URLItem.ts) builds a navigation target from a URL and its
    provenance.  The codes are any four distinct numbers; of [getURLItem] only
    what the data model says of provenance is assumed: the item carries the
    source it was built with.  [loadHandlerClass] stands for [require(Source)]
    followed by [getURLHandlerByClassName(ClassName, Config, ...)]: it throws
    (left) or gives the class name and the behaviour of the new instance. *)
Class Imports : Type := {
  HandleURL_ERROR : Z;
  HandleURL_NONE : Z;
  HandleURL_CONTINUE : Z;
  HandleURL_STOP : Z;
  HandleURL_distinct :
    NoDup [HandleURL_ERROR; HandleURL_NONE; HandleURL_CONTINUE; HandleURL_STOP];
  getURLItem : string -> URLSource -> IURLItem;
  getURLItem_Source : forall url source, Source (getURLItem url source) = source;
  loadHandlerClass :
    string -> string -> string ->
    string + (string * (string -> URLSource -> HandlerRun))
}.

(** A URL handler instance.  [oid] is the identity of the object: [indexOf]
    compares handlers by reference. *)
Record URLHandler : Type := {
  oid : nat;
  constructor_name : string;
  handleURL : string -> URLSource -> HandlerRun
}.

Definition same_handler (h : URLHandler) (o : option URLHandler) : bool :=
  match o with
  | Some h' => Nat.eqb (oid h) (oid h')
  | None => false
  end.

(** [handlers.indexOf(current)]; the current handler may still be
    [undefined], which no element of the array is. *)
Definition handlerIndexOf (l : list URLHandler) (o : option URLHandler) : Z :=
  indexOf (fun h => same_handler h o) l.

(** The reply of a handler that keeps the contract. *)
Definition reply (code : Z) (redirect : option string) : HandlerRun :=
  {| callbacks := [(code, redirect)]; raises := None |}.

(** ** BrowserHistory *)

Module BrowserHistory.

Definition ItemRef : Type := nat.

(** Modelled from the spec: BrowserHistory.ts is not among the sources.  An
    entry has a URL and two optional neighbours; [None] is [undefined]. *)
Record BrowserHistoryItem : Type := {
  URL : string;
  Previous : option ItemRef;
  Next : option ItemRef
}.

(** Modelled from the spec: the history owns its entries; they are objects
    shared with the renderer's [currentHistoryItem], so they live in a
    store addressed by reference. *)
Record BrowserHistory : Type := {
  store : list BrowserHistoryItem;
  Root : ItemRef;
  Current : ItemRef;
  Size : nat
}.

(** Modelled from the spec: [new BrowserHistory(rootURL)] holds the single
    root entry. *)
Definition create (rootURL : string) : BrowserHistory :=
  {| store := [ {| URL := rootURL; Previous := None; Next := None |} ];
     Root := 0%nat; Current := 0%nat; Size := 1%nat |}.

(** Modelled from the spec: [addOrUpdateItem(url)] returns [Current]
    unchanged when it already has this URL; otherwise it links a new
    entry after [Current], which drops the former forward chain, moves
    [Current] to it and increments [Size]. *)
Definition addOrUpdateItem (url : string) (h : BrowserHistory)
  : BrowserHistory * ItemRef :=
  match store h !! Current h with
  | Some cur =>
      if String.eqb url (URL cur) then (h, Current h)
      else
        let fresh := length (store h) in
        let cur' := {| URL := URL cur; Previous := Previous cur;
                       Next := Some fresh |} in
        let item := {| URL := url; Previous := Some (Current h);
                       Next := None |} in
        ({| store := <[Current h := cur']> (store h) ++ [item];
            Root := Root h; Current := fresh; Size := S (Size h) |}, fresh)
  | None => (h, Current h)
  end.

End BrowserHistory.

Import BrowserHistory.

(** ** The renderer's state *)

(** The part of [ISettings] the renderer's modelled methods read.  An entry of
    [URLHandlers] is read for [Source], [ClassName] and [Config]; [Load] and
    [Active] are the flags of the handler descriptor in the specification. *)
Module Config.

Record URLHandlerEntry : Type := {
  Load : bool;
  Active : bool;
  Source : string;
  ClassName : string;
  Config : string
}.

Record ISettings : Type := {
  URLHandlers : list URLHandlerEntry;
  Permissions : list string
}.

End Config.

(** Properties of DOM elements and of the Electron window that the methods
    assign. *)
Record DOM : Type := {
  spinner_visibility : string;
  webView_src : string;
  window_title : string;
  urlField_value : string;
  goBackButton_disabled : bool;
  goForwardButton_disabled : bool
}.

Inductive Level : Type := LOG | INFO | WARN | ERROR.

(** Calls that leave the class, in the order they are made. *)
Inductive Event : Type :=
| Console (level : Level) (message : string)
| HandleURL (handler : nat) (url : string) (source : URLSource)
| SetPermissionRequestHandler
| PermissionCallback (permissionGranted : bool).

Record Renderer : Type := {
  settings : Config.ISettings;
  appInfo_Name : string;
  URLHandlers : list URLHandler;
  currentURLHandler : option URLHandler;
  history : BrowserHistory;
  currentHistoryItem : option ItemRef;
  currentURLItem : option IURLItem;
  errorPage : string;
  dom : DOM;
  (** callbacks scheduled by [window.setTimeout], oldest first *)
  timers : list (Z * option string);
  trace : list Event
}.

Definition blankPage : string := "_blank".

(** [encodeURI("data:text/html,<html><head></head><body></body></html>")]:
    [encodeURI] escapes the angle brackets and keeps the other characters. *)
Definition blankPageContent : string :=
  "data:text/html,%3Chtml%3E%3Chead%3E%3C/head%3E%3Cbody%3E%3C/body%3E%3C/html%3E".

Definition hidden : string := "hidden".
Definition visible : string := "".

(** *** Assignments *)

Definition set_URLHandlers (v : list URLHandler) (r : Renderer) : Renderer :=
  {| settings := settings r; appInfo_Name := appInfo_Name r; URLHandlers := v;
     currentURLHandler := currentURLHandler r; history := history r;
     currentHistoryItem := currentHistoryItem r;
     currentURLItem := currentURLItem r; errorPage := errorPage r;
     dom := dom r; timers := timers r; trace := trace r |}.

Definition set_currentURLHandler (v : option URLHandler) (r : Renderer) : Renderer :=
  {| settings := settings r; appInfo_Name := appInfo_Name r;
     URLHandlers := URLHandlers r; currentURLHandler := v; history := history r;
     currentHistoryItem := currentHistoryItem r;
     currentURLItem := currentURLItem r; errorPage := errorPage r;
     dom := dom r; timers := timers r; trace := trace r |}.

Definition set_history (v : BrowserHistory) (r : Renderer) : Renderer :=
  {| settings := settings r; appInfo_Name := appInfo_Name r;
     URLHandlers := URLHandlers r; currentURLHandler := currentURLHandler r;
     history := v; currentHistoryItem := currentHistoryItem r;
     currentURLItem := currentURLItem r; errorPage := errorPage r;
     dom := dom r; timers := timers r; trace := trace r |}.

Definition set_currentHistoryItem (v : option ItemRef) (r : Renderer) : Renderer :=
  {| settings := settings r; appInfo_Name := appInfo_Name r;
     URLHandlers := URLHandlers r; currentURLHandler := currentURLHandler r;
     history := history r; currentHistoryItem := v;
     currentURLItem := currentURLItem r; errorPage := errorPage r;
     dom := dom r; timers := timers r; trace := trace r |}.

Definition set_currentURLItem (v : option IURLItem) (r : Renderer) : Renderer :=
  {| settings := settings r; appInfo_Name := appInfo_Name r;
     URLHandlers := URLHandlers r; currentURLHandler := currentURLHandler r;
     history := history r; currentHistoryItem := currentHistoryItem r;
     currentURLItem := v; errorPage := errorPage r;
     dom := dom r; timers := timers r; trace := trace r |}.

Definition set_dom (v : DOM) (r : Renderer) : Renderer :=
  {| settings := settings r; appInfo_Name := appInfo_Name r;
     URLHandlers := URLHandlers r; currentURLHandler := currentURLHandler r;
     history := history r; currentHistoryItem := currentHistoryItem r;
     currentURLItem := currentURLItem r; errorPage := errorPage r;
     dom := v; timers := timers r; trace := trace r |}.

Definition set_timers (v : list (Z * option string)) (r : Renderer) : Renderer :=
  {| settings := settings r; appInfo_Name := appInfo_Name r;
     URLHandlers := URLHandlers r; currentURLHandler := currentURLHandler r;
     history := history r; currentHistoryItem := currentHistoryItem r;
     currentURLItem := currentURLItem r; errorPage := errorPage r;
     dom := dom r; timers := v; trace := trace r |}.

Definition set_trace (v : list Event) (r : Renderer) : Renderer :=
  {| settings := settings r; appInfo_Name := appInfo_Name r;
     URLHandlers := URLHandlers r; currentURLHandler := currentURLHandler r;
     history := history r; currentHistoryItem := currentHistoryItem r;
     currentURLItem := currentURLItem r; errorPage := errorPage r;
     dom := dom r; timers := timers r; trace := v |}.

(** [this.spinner.style.visibility = v] *)
Definition set_spinner_visibility (v : string) (r : Renderer) : Renderer :=
  set_dom {| spinner_visibility := v; webView_src := webView_src (dom r);
             window_title := window_title (dom r);
             urlField_value := urlField_value (dom r);
             goBackButton_disabled := goBackButton_disabled (dom r);
             goForwardButton_disabled := goForwardButton_disabled (dom r) |} r.

(** [this.webView.setAttribute("src", v)] *)
Definition set_webView_src (v : string) (r : Renderer) : Renderer :=
  set_dom {| spinner_visibility := spinner_visibility (dom r); webView_src := v;
             window_title := window_title (dom r);
             urlField_value := urlField_value (dom r);
             goBackButton_disabled := goBackButton_disabled (dom r);
             goForwardButton_disabled := goForwardButton_disabled (dom r) |} r.

(** [this.window.setTitle(v)] *)
Definition setTitle (v : string) (r : Renderer) : Renderer :=
  set_dom {| spinner_visibility := spinner_visibility (dom r);
             webView_src := webView_src (dom r); window_title := v;
             urlField_value := urlField_value (dom r);
             goBackButton_disabled := goBackButton_disabled (dom r);
             goForwardButton_disabled := goForwardButton_disabled (dom r) |} r.

(** [this.urlField.value = v] *)
Definition set_urlField_value (v : string) (r : Renderer) : Renderer :=
  set_dom {| spinner_visibility := spinner_visibility (dom r);
             webView_src := webView_src (dom r);
             window_title := window_title (dom r); urlField_value := v;
             goBackButton_disabled := goBackButton_disabled (dom r);
             goForwardButton_disabled := goForwardButton_disabled (dom r) |} r.

(** [this.goBackButton.disabled = v] *)
Definition set_goBackButton_disabled (v : bool) (r : Renderer) : Renderer :=
  set_dom {| spinner_visibility := spinner_visibility (dom r);
             webView_src := webView_src (dom r);
             window_title := window_title (dom r);
             urlField_value := urlField_value (dom r);
             goBackButton_disabled := v;
             goForwardButton_disabled := goForwardButton_disabled (dom r) |} r.

(** [this.goForwardButton.disabled = v] *)
Definition set_goForwardButton_disabled (v : bool) (r : Renderer) : Renderer :=
  set_dom {| spinner_visibility := spinner_visibility (dom r);
             webView_src := webView_src (dom r);
             window_title := window_title (dom r);
             urlField_value := urlField_value (dom r);
             goBackButton_disabled := goBackButton_disabled (dom r);
             goForwardButton_disabled := v |} r.

Definition emit (e : Event) (r : Renderer) : Renderer :=
  set_trace (trace r ++ [e]) r.

Definition console_log (m : string) : Renderer -> Renderer := emit (Console LOG m).
Definition console_info (m : string) : Renderer -> Renderer := emit (Console INFO m).
Definition console_warn (m : string) : Renderer -> Renderer := emit (Console WARN m).
Definition console_error (m : string) : Renderer -> Renderer := emit (Console ERROR m).

(** ** The methods of [CRendererApplication] *)

Definition nl : string := String (ascii_of_nat 10) "".

(** An object, or [undefined], in a template literal. *)
Definition objectToString {A : Type} (o : option A) : string :=
  match o with
  | Some _ => "[object Object]"
  | None => "undefined"
  end.

(** How one run of [doHandleURLCallback] ends.  The method returns nothing;
    the tag names the statement that ended it. *)
Inductive Exit : Type :=
| ReturnedOnError       (* [return] in [case HandleURL.ERROR] *)
| ReturnedOnStop        (* [return] in [case HandleURL.STOP] *)
| ReturnedOnUnknown     (* [return] in [default] *)
| CalledNextHandler     (* the next handler's [handleURL] was called *)
| ReachedEndOfChain     (* no next handler: permission handler installed *)
| CaughtException (error : string)   (* the [catch] block logged [error] *)
| Threw (error : string).            (* an exception left the method *)

Section Methods.

Context {imports : Imports}.

(** An identity no handler of [l] has: [new] gives a new object. *)
Definition fresh_oid (l : list URLHandler) : nat := S (list_max (map oid l)).

(** The body of the loop of [loadURLHandlers] for one entry. *)
Definition loadURLHandler (urlHandlerEntry : Config.URLHandlerEntry)
    (r : Renderer) : Renderer :=
  if truthy (Config.Source urlHandlerEntry)
     && negb (String.eqb (Config.Source urlHandlerEntry) "")
  then
    match loadHandlerClass (Config.Source urlHandlerEntry)
                           (Config.ClassName urlHandlerEntry)
                           (Config.Config urlHandlerEntry) with
    | inr (name, behaviour) =>
        let classInstance :=
          {| oid := fresh_oid (URLHandlers r); constructor_name := name;
             handleURL := behaviour |} in
        set_URLHandlers (URLHandlers r ++ [classInstance]) r
    | inl error =>
        console_error ("Error loading URL handler from: "
                       +:+ Config.Source urlHandlerEntry +:+ nl +:+ error) r
    end
  else r.

Definition loadURLHandlers (r : Renderer) : Renderer :=
  fold_left (fun r entry => loadURLHandler entry r)
            (Config.URLHandlers (settings r)) r.

(** [handleURLCallback]: schedules [doHandleURLCallback] with the same
    arguments. *)
Definition handleURLCallback (handleURLResult : Z) (redirectURL : option string)
    (r : Renderer) : Renderer :=
  set_timers (timers r ++ [(handleURLResult, redirectURL)]) r.

(** The call [handler.handleURL(url, source, this.handleURLCallback)]. *)
Definition callHandleURL (handler : URLHandler) (url : string)
    (source : URLSource) (r : Renderer) : Renderer * Completion :=
  let run := handleURL handler url source in
  let r1 := emit (HandleURL (oid handler) url source) r in
  let r2 := fold_left (fun r cb => handleURLCallback (fst cb) (snd cb) r)
                      (callbacks run) r1 in
  (r2, match raises run with Some e => Thrown e | None => Normal end).

Definition loadURL (urlItem : IURLItem) (updateHistory : bool) (r : Renderer)
  : Renderer * Completion :=
  match URLHandlers r with
  | [] => (console_warn "loadURL: No URL handlers are configured!" r, Normal)
  | first :: _ =>
      if String.eqb (OriginalURL urlItem) blankPage then
        (setTitle (appInfo_Name r) (set_webView_src blankPageContent r), Normal)
      else
        let r1 :=
          if updateHistory then
            let (h, item) := addOrUpdateItem (URLItem.URL urlItem) (history r) in
            set_currentHistoryItem (Some item) (set_history h r)
          else r in
        let r2 := set_currentURLHandler (Some first) r1 in
        let r3 := set_currentURLItem (Some urlItem) r2 in
        let r4 := setTitle (URLItem.URL urlItem) r3 in
        let r5 := set_spinner_visibility visible r4 in
        callHandleURL first (URLItem.URL urlItem) (Source urlItem) r5
  end.

(** [this.currentURLItem.URL]; [None] when the read throws. *)
Definition currentURL (r : Renderer) : option string :=
  URLItem.URL <$> currentURLItem r.

(** The [switch] statement.  [None]: it ended by [break]. *)
Definition switchOnResult (handleURLResult : Z) (currentHandlerName logMsg : string)
    (r : Renderer) : Renderer * option Exit :=
  if handleURLResult =? HandleURL_ERROR then
    match currentURL r with
    | Some url =>
        (console_error ("handleURL: ERROR: Calling URL handler "
           +:+ currentHandlerName +:+ " with " +:+ url
           +:+ " returned with an error, stopping.") r, Some ReturnedOnError)
    | None => (r, Some (Threw TypeError))
    end
  else if handleURLResult =? HandleURL_NONE then
    match currentURL r with
    | Some url =>
        (console_log ("handleURL: NONE: URL handler " +:+ currentHandlerName
           +:+ " didn't handle URL " +:+ url +:+ ", " +:+ logMsg +:+ ".") r,
         None)
    | None => (r, Some (Threw TypeError))
    end
  else if handleURLResult =? HandleURL_CONTINUE then
    match currentURL r with
    | Some url =>
        (console_log ("handleURL: CONTINUE: Successfully called URL handler "
           +:+ currentHandlerName +:+ " with " +:+ url +:+ ", " +:+ logMsg
           +:+ ".") r, None)
    | None => (r, Some (Threw TypeError))
    end
  else if handleURLResult =? HandleURL_STOP then
    (console_log ("handleURL: STOP: Successfully called URL handler "
       +:+ currentHandlerName +:+ " with "
       +:+ objectToString (currentURLItem r) +:+ ".URL, stopping.") r,
     Some ReturnedOnStop)
  else
    match currentURL r with
    | Some url =>
        (console_error ("handleURL: " +:+ numberToString handleURLResult
           +:+ ": Calling URL handler " +:+ currentHandlerName +:+ " with "
           +:+ url +:+ " returned an unknown result ("
           +:+ numberToString handleURLResult +:+ "), stopping.") r,
         Some ReturnedOnUnknown)
    | None => (r, Some (Threw TypeError))
    end.

(** The redirect URL when [if (redirectURL)] holds: the optional argument
    is neither [undefined] nor the empty string. *)
Definition redirectTarget (redirectURL : option string) : option string :=
  match redirectURL with
  | Some to => if truthy to then Some to else None
  | None => None
  end.

(** [if (redirectURL) { console.log(...) }] *)
Definition logRedirect (redirectURL : option string) (currentHandlerName : string)
    (r : Renderer) : Renderer * option Exit :=
  match redirectTarget redirectURL with
  | Some to =>
      match currentURL r with
      | Some url =>
          (console_log ("handleURL: " +:+ currentHandlerName
             +:+ " redirected from " +:+ url +:+ " to " +:+ to +:+ ".") r, None)
      | None => (r, Some (Threw TypeError))
      end
  | None => (r, None)
  end.

(** [if (nextHandler) { ... } else { ... }] *)
Definition proceed (redirectURL : option string)
    (nextHandler : option URLHandler) (r : Renderer) : Renderer * Exit :=
  match nextHandler with
  | Some next =>
      let r1 :=
        match redirectTarget redirectURL with
        | Some to => set_currentURLItem (Some (getURLItem to PAGE)) r
        | None => r
        end in
      let r2 := set_currentURLHandler (Some next) r1 in
      match currentURLItem r2 with
      | Some item =>
          match callHandleURL next (URLItem.URL item) (Source item) r2 with
          | (r3, Normal) => (r3, CalledNextHandler)
          | (r3, Thrown error) => (r3, Threw error)
          end
      | None => (r2, Threw TypeError)
      end
  | None => (emit SetPermissionRequestHandler r, ReachedEndOfChain)
  end.

(** The [try] block; [Threw] is an exception on its way to [catch]. *)
Definition tryBlock (handleURLResult : Z) (redirectURL : option string)
    (nextHandler : option URLHandler) (currentHandlerName logMsg : string)
    (r : Renderer) : Renderer * Exit :=
  match switchOnResult handleURLResult currentHandlerName logMsg r with
  | (r1, Some exit) => (r1, exit)
  | (r1, None) =>
      match logRedirect redirectURL currentHandlerName r1 with
      | (r2, Some exit) => (r2, exit)
      | (r2, None) => proceed redirectURL nextHandler r2
      end
  end.

(** The [catch] block; an exception thrown here leaves the method. *)
Definition catchBlock (currentHandlerName : string) (res : Renderer * Exit)
  : Renderer * Exit :=
  match res with
  | (r, Threw error) =>
      match currentURL r with
      | Some url =>
          (console_error ("Error calling URL handler: " +:+ currentHandlerName
             +:+ " with " +:+ url +:+ nl +:+ error) r, CaughtException error)
      | None => (r, Threw TypeError)
      end
  | _ => res
  end.

(** The [finally] block. *)
Definition finallyBlock (handleURLResult : Z) (r : Renderer) : Renderer :=
  if negb (handleURLResult =? HandleURL_NONE)
     && negb (handleURLResult =? HandleURL_CONTINUE)
  then set_spinner_visibility hidden r
  else r.

Definition doHandleURLCallback (handleURLResult : Z) (redirectURL : option string)
    (r : Renderer) : Renderer * Exit :=
  let nextHandler :=
    index (URLHandlers r)
          (handlerIndexOf (URLHandlers r) (currentURLHandler r) + 1) in
  match currentURLHandler r with
  | None => (r, Threw TypeError)
  | Some current =>
      let currentHandlerName := constructor_name current in
      let logMsg :=
        match nextHandler with
        | Some _ => "continuing with next handler"
        | None => "last handler in chain reached"
        end in
      let (r1, exit) :=
        catchBlock currentHandlerName
          (tryBlock handleURLResult redirectURL nextHandler
                    currentHandlerName logMsg r) in
      (finallyBlock handleURLResult r1, exit)
  end.

(** The event loop running the pending timers, oldest first, at most [fuel]
    of them; it gives the exits of the runs of [doHandleURLCallback]. *)
Fixpoint runTimers (fuel : nat) (r : Renderer) : Renderer * list Exit :=
  match fuel with
  | O => (r, [])
  | S fuel' =>
      match timers r with
      | [] => (r, [])
      | (handleURLResult, redirectURL) :: rest =>
          let (r1, exit) :=
            doHandleURLCallback handleURLResult redirectURL (set_timers rest r) in
          let (r2, exits) := runTimers fuel' r1 in
          (r2, exit :: exits)
      end
  end.

(** [this.currentHistoryItem.Previous] and [.Next]: [None] when the read
    throws (the field is still [undefined]; a reference always has its
    object, so a missing one is given the same behaviour). *)
Definition currentItem (r : Renderer) : option BrowserHistoryItem :=
  ref ← currentHistoryItem r; store (history r) !! ref.

(** The common body of [goBack] and [goForward]; [neighbour] is the field
    read, [Previous] or [Next]. *)
Definition goTo (neighbour : BrowserHistoryItem -> option ItemRef)
    (r : Renderer) : Renderer * Completion :=
  match currentItem r with
  | None => (r, Thrown TypeError)
  | Some item =>
      match neighbour item with
      | Some target =>
          let r1 := set_currentHistoryItem (Some target) r in
          match currentItem r1 with
          | Some item' =>
              loadURL (getURLItem (BrowserHistory.URL item') USER) false r1
          | None => (r1, Thrown TypeError)
          end
      | None => (r, Normal)
      end
  end.

Definition goBack : Renderer -> Renderer * Completion := goTo Previous.
Definition goForward : Renderer -> Renderer * Completion := goTo Next.

(** [this.settings.Permissions.indexOf(permission) > -1] *)
Definition grant (permission : string) (r : Renderer) : bool :=
  indexOf (String.eqb permission) (Config.Permissions (settings r)) >? -1.

Definition onPermissionRequest (permission : string) (r : Renderer) : Renderer :=
  let grant := grant permission r in
  let r1 := console_info ("Permission '" +:+ permission +:+ "' requested, "
              +:+ (if grant then "granting." else "denying.")) r in
  emit (PermissionCallback grant) r1.

(** The value assigned to [goBackButton.disabled] ([neighbour] is
    [Previous]) and to [goForwardButton.disabled] ([Next]); [None] when
    evaluating it throws.  [||] evaluates its right operand only when the
    left one is false; the field is never [null]. *)
Definition historyButtonDisabled (neighbour : BrowserHistoryItem -> option ItemRef)
    (r : Renderer) : option bool :=
  if (Size (history r) <? 2)%nat then Some true
  else
    match currentItem r with
    | Some item =>
        Some (match neighbour item with None => true | Some _ => false end)
    | None => None
    end.

(** The two assignments that end [onDidNavigate] and [onDidNavigateInPage]. *)
Definition updateHistoryButtons (r : Renderer) : Renderer * Completion :=
  match historyButtonDisabled Previous r with
  | None => (r, Thrown TypeError)
  | Some back =>
      let r1 := set_goBackButton_disabled back r in
      match historyButtonDisabled Next r1 with
      | None => (r1, Thrown TypeError)
      | Some forward => (set_goForwardButton_disabled forward r1, Normal)
      end
  end.

Definition onDidNavigate (event_url : string) (r : Renderer)
  : Renderer * Completion :=
  if String.eqb event_url blankPageContent then
    updateHistoryButtons (set_urlField_value "" r)
  else if String.eqb event_url (errorPage r) then
    match currentURL r with
    | Some url => updateHistoryButtons (set_urlField_value url r)
    | None => (r, Thrown TypeError)
    end
  else updateHistoryButtons (set_urlField_value event_url r).

Definition onDidNavigateInPage (event_url : string) (r : Renderer)
  : Renderer * Completion :=
  let (h, item) :=
    addOrUpdateItem (URLItem.URL (getURLItem event_url PAGE)) (history r) in
  let r1 := set_currentHistoryItem (Some item) (set_history h r) in
  updateHistoryButtons (set_urlField_value event_url r1).

End Methods.

(** ** shared/Settings.ts *)

Module Settings.

(** A value as [JSON.parse] gives it, or [undefined] (a property that is
    absent).  The numbers of a settings file are taken to be integers; an
    object has one value per property name. *)
Inductive JSValue : Type :=
| JSUndefined
| JSNull
| JSBool (b : bool)
| JSNumber (n : Z)
| JSString (s : string)
| JSArray (elements : list JSValue)
| JSObject (properties : list (string * JSValue)).

(** The first value bound to [name] in a property list. *)
Fixpoint assoc (name : string) (properties : list (string * JSValue))
  : option JSValue :=
  match properties with
  | [] => None
  | (k, v) :: rest => if String.eqb name k then Some v else assoc name rest
  end.

(** The property read [o.name], for the capitalised names of the settings:
    it throws ([None]) on [undefined] and [null], reads the property of an
    object, and gives [undefined] on any other value and on an object
    without the property. *)
Definition member (o : JSValue) (name : string) : option JSValue :=
  match o with
  | JSUndefined | JSNull => None
  | JSObject properties => Some (default JSUndefined (assoc name properties))
  | _ => Some JSUndefined
  end.

(** The assignment [o.name = v] on an object that has the property. *)
Fixpoint assign (name : string) (v : JSValue)
    (properties : list (string * JSValue)) : list (string * JSValue) :=
  match properties with
  | [] => []
  | (k, w) :: rest =>
      if String.eqb name k then (k, v) :: rest
      else (k, w) :: assign name v rest
  end.

Inductive Kind : Type :=
| KUndefined | KNull | KBoolean | KNumber | KString | KArray | KObject.

Definition kind (v : JSValue) : Kind :=
  match v with
  | JSUndefined => KUndefined
  | JSNull => KNull
  | JSBool _ => KBoolean
  | JSNumber _ => KNumber
  | JSString _ => KString
  | JSArray _ => KArray
  | JSObject _ => KObject
  end.

Definition Kind_eqb (a b : Kind) : bool :=
  match a, b with
  | KUndefined, KUndefined | KNull, KNull | KBoolean, KBoolean
  | KNumber, KNumber | KString, KString | KArray, KArray
  | KObject, KObject => true
  | _, _ => false
  end.

(** Modelled from the spec: [$Utils.normalize] (Utils.ts) is not among the
    sources.  A value that is absent or wrongly typed is replaced by the
    default; the type of a value is its kind (an array is not an object,
    [null] is neither), and the elements of an array are not inspected. *)
Definition normalize (value defaultValue : JSValue) : JSValue :=
  if Kind_eqb (kind value) (kind defaultValue) then value else defaultValue.

(** [name: $Utils.normalize(o.name, d)] for each [(name, d)] of a table, in
    order; [None] when a property read throws. *)
Fixpoint normalizeMembers (o : JSValue) (defaults : list (string * JSValue))
  : option (list (string * JSValue)) :=
  match defaults with
  | [] => Some []
  | (name, d) :: rest =>
      v ← member o name;
      tail ← normalizeMembers o rest;
      Some ((name, normalize v d) :: tail)
  end.

Definition strings (l : list string) : JSValue := JSArray (JSString <$> l).

(** A method that returns a value or throws. *)
Inductive Result : Type :=
| Returns (value : JSValue)
| Throws (error : string).

Definition result_of (o : option JSValue) : Result :=
  match o with
  | Some v => Returns v
  | None => Throws TypeError
  end.

(** *** The current version (the last one of shared/Settings.ts) *)

Section Current.

(** [$Utils.requireJSONFile]: the error thrown, or the parsed value. *)
Variable requireJSONFile : string -> string + JSValue.
(** [app.userAgentFallback] and [APP_INFO.APP_PATH_PKG]. *)
Variable userAgentFallback : string.
Variable APP_PATH_PKG : string.
(** [String.prototype.trim], and [s.replace(/\$APP_PATH\$/g, by)]. *)
Variable trim : string -> string.
Variable replace_APP_PATH : string -> string -> string.

Definition Window_defaults : list (string * JSValue) :=
  [ ("Left", JSNumber 10);
    ("Top", JSNumber 10);
    ("LeftTopOfCurrentScreen", JSBool true);
    ("Width", JSNumber 1280);
    ("Height", JSNumber 900);
    ("NewRelativeToCurrent", JSBool true) ].

Definition ShortCuts_defaults : list (string * JSValue) :=
  [ ("Global", JSBool true);
    ("ToggleAddressBar", strings ["mod+t"]);
    ("ToggleInternalDevTools", strings ["mod+shift+d"]);
    ("ToggleDevTools", strings ["mod+d"]);
    ("FocusLocationBar", strings ["mod+l"]);
    ("NewWindow", strings ["mod+n"]);
    ("InternalReload", strings [""]);
    ("Reload", strings ["mod+r"; "f5"]);
    ("GoBack", strings ["ctrl+alt+left"]);
    ("GoForward", strings ["ctrl+alt+right"]);
    ("ExitHTMLFullscreen", strings ["esc"]);
    ("ToggleWin32Menu", strings ["ctrl+h"]) ].

(** The fields between [RequestHandlers] and [UserAgent]. *)
Definition logging_defaults : list (string * JSValue) :=
  [ ("LogRequests", JSBool false);
    ("CaptureConsole", JSBool true) ].

(** The fields between [UserAgent] and [Win32MenuState]. *)
Definition flags_defaults : list (string * JSValue) :=
  [ ("Permissions", strings ["fullscreen"]);
    ("AllowPlugins", JSBool false);
    ("AllowPopups", JSBool false);
    ("AllowNewWindows", JSBool true);
    ("ClearTraces", JSBool false);
    ("SingleInstance", JSBool true);
    ("FocusOnNewURL", JSBool true);
    ("DarwinForceFocus", JSBool false);
    ("HardwareAcceleration", JSBool true);
    ("ContentProtection", JSBool false);
    ("AddressBar", JSNumber 2) ].

Definition Win32MenuState_defaults : list (string * JSValue) :=
  [ ("Win32MenuState", JSNumber 1) ].

Definition Scheme_defaults : list (string * JSValue) :=
  [ ("Scheme", JSString "bb") ].

Definition Homepage_default : JSValue := JSString "bb://home".

Definition requestHandler (load active : bool) (source : string)
    (config : list (string * JSValue)) : JSValue :=
  JSObject ([ ("Load", JSBool load); ("Active", JSBool active);
              ("Source", JSString source) ] ++ config).

Definition RequestHandlers_default : JSValue :=
  JSArray
    [ requestHandler false false
        "../lib/RequestHandlers/RequestLoggerHandler.js" [];
      requestHandler false false
        "../lib/RequestHandlers/FilterRequestHandler.js"
        [ ("Config", JSObject
            [ ("Filter", strings
                [ "^https://github.com(/.*)?";
                  "^https://github.githubassets.com(/.*)?";
                  "^https?://(.*\.)?heise.de(/.*)?";
                  "^https://heise.cloudimg.io(/.*)?";
                  "^<LOAD>$";
                  "^<BACK>$";
                  "^<FORWARD>$";
                  "^<RELOAD>$";
                  "^data:text/html,.*";
                  "^bb://.*" ]);
              ("LogAllow", JSBool false);
              ("LogDeny", JSBool true) ]) ];
      requestHandler false false
        "../lib/RequestHandlers/RequestHandlerTemplate.js"
        [ ("Config", JSObject [ ("Log", JSBool true) ]) ];
      requestHandler true true
        "../lib/RequestHandlers/DefaultRequestHandler.js"
        [ ("Config", JSObject [ ("Log", JSBool false) ]) ] ].

Definition getDefaultSettings : JSValue :=
  JSObject
    ([ ("Window", JSObject Window_defaults);
       ("ShortCuts", JSObject ShortCuts_defaults);
       ("RequestHandlers", RequestHandlers_default) ]
     ++ logging_defaults
     ++ [ ("UserAgent", JSString userAgentFallback) ]
     ++ flags_defaults
     ++ Win32MenuState_defaults
     ++ [ ("Homepage", Homepage_default) ]
     ++ Scheme_defaults).

(** [v === ""] *)
Definition is_empty_string (v : JSValue) : bool :=
  match v with
  | JSString s => String.eqb s ""
  | _ => false
  end.

(** [v.trim().replace(/\$APP_PATH\$/g, APP_INFO.APP_PATH_PKG)]; only a
    string has the method [trim]. *)
Definition expandHomepage (v : JSValue) : option JSValue :=
  match v with
  | JSString s => Some (JSString (replace_APP_PATH (trim s) APP_PATH_PKG))
  | _ => None
  end.

(** [[0, 1, 2].indexOf(v) === -1] *)
Definition not_a_menu_state (v : JSValue) : bool :=
  match v with
  | JSNumber n => indexOf (Z.eqb n) [0; 1; 2] =? -1
  | _ => true
  end.

(** The statements of [getSettings] after the [try] statement, on the
    parsed value. *)
Definition normalizeSettings (settings : JSValue) : option JSValue :=
  ua ← member settings "UserAgent";
  let userAgent :=
    if is_empty_string ua then JSString userAgentFallback else ua in
  window ← member settings "Window";
  windowFields ← normalizeMembers window Window_defaults;
  shortCuts ← member settings "ShortCuts";
  shortCutsFields ← normalizeMembers shortCuts ShortCuts_defaults;
  requestHandlers ← member settings "RequestHandlers";
  logging ← normalizeMembers settings logging_defaults;
  flags ← normalizeMembers settings flags_defaults;
  menu ← normalizeMembers settings Win32MenuState_defaults;
  homepage ← member settings "Homepage";
  homepage' ← expandHomepage (normalize homepage Homepage_default);
  scheme ← normalizeMembers settings Scheme_defaults;
  let fields :=
    [ ("Window", JSObject windowFields);
      ("ShortCuts", JSObject shortCutsFields);
      ("RequestHandlers", requestHandlers) ]
    ++ logging
    ++ [ ("UserAgent", userAgent) ]
    ++ flags
    ++ menu
    ++ [ ("Homepage", homepage') ]
    ++ scheme in
  menuState ← member (JSObject fields) "Win32MenuState";
  Some (JSObject (if not_a_menu_state menuState
                  then assign "Win32MenuState" (JSNumber 1) fields
                  else fields)).

(** [getSettings(configFile)]: the result, and what it writes to the
    console. *)
Definition getSettings (configFile : string) : Result * list Event :=
  match requireJSONFile configFile with
  | inl error =>
      (Returns getDefaultSettings,
       [Console ERROR ("Could't read configuration file " +:+ configFile
                       +:+ " " +:+ error)])
  | inr settings => (result_of (normalizeSettings settings), [])
  end.

End Current.

(** *** The first version (unnamed/part_000) *)

Module First.

Section First.

(** [$FSE.readJsonSync]: the error thrown, or the parsed value. *)
Variable readJsonSync : string -> string + JSValue.
(** [navigator.userAgent], or [None] when [typeof navigator] is
    ["undefined"]. *)
Variable navigator_userAgent : option string.

Definition defaultUserAgent : JSValue :=
  JSString (default "" navigator_userAgent).

Definition Window_defaults : list (string * JSValue) :=
  [ ("Left", JSNumber 50);
    ("Top", JSNumber 50);
    ("Width", JSNumber 1024);
    ("Height", JSNumber 768) ].

(** The shortcuts of [getDefaultSettings]. *)
Definition ShortCuts_defaults : list (string * JSValue) :=
  [ ("Global", JSBool true);
    ("ToggleAddressBar", JSString "ctrl+alt+a");
    ("ToggleInternalDevTools", JSString "ctrl+alt+i");
    ("ToggleDevTools", JSString "ctrl+alt+d");
    ("FocusLocationBar", JSString "ctrl+alt+l");
    ("InternalReload", JSString "ctrl+alt+shift+r");
    ("Reload", JSString "ctrl+alt+r");
    ("GoBack", JSString "ctrl+alt+left");
    ("GoForward", JSString "ctrl+alt+right");
    ("ExitHTMLFullscreen", JSString "esc") ].

(** The second arguments of [normalize] in [getSettings]: those of
    [getDefaultSettings], but for [ToggleDevTools]. *)
Definition ShortCuts_fallbacks : list (string * JSValue) :=
  [ ("Global", JSBool true);
    ("ToggleAddressBar", JSString "ctrl+alt+a");
    ("ToggleInternalDevTools", JSString "ctrl+alt+i");
    ("ToggleDevTools", JSString "ctrl+alt+dx");
    ("FocusLocationBar", JSString "ctrl+alt+l");
    ("InternalReload", JSString "ctrl+alt+shift+r");
    ("Reload", JSString "ctrl+alt+r");
    ("GoBack", JSString "ctrl+alt+left");
    ("GoForward", JSString "ctrl+alt+right");
    ("ExitHTMLFullscreen", JSString "esc") ].

Definition flags_defaults : list (string * JSValue) :=
  [ ("Permissions", strings ["fullscreen"]);
    ("ClearTraces", JSBool true);
    ("SingleInstance", JSBool true);
    ("FocusOnNewURL", JSBool true) ].

Definition getDefaultSettings : JSValue :=
  JSObject
    ([ ("Window", JSObject Window_defaults);
       ("ShortCuts", JSObject ShortCuts_defaults);
       ("UserAgent", defaultUserAgent) ]
     ++ flags_defaults).

(** The statements of [getSettings] after the [try] statement. *)
Definition normalizeSettings (settings : JSValue) : option JSValue :=
  ua ← member settings "UserAgent";
  let userAgent :=
    match ua with
    | JSString _ => ua
    | _ => defaultUserAgent
    end in
  window ← member settings "Window";
  windowFields ← normalizeMembers window Window_defaults;
  shortCuts ← member settings "ShortCuts";
  shortCutsFields ← normalizeMembers shortCuts ShortCuts_fallbacks;
  flags ← normalizeMembers settings flags_defaults;
  Some (JSObject ([ ("Window", JSObject windowFields);
                    ("ShortCuts", JSObject shortCutsFields);
                    ("UserAgent", userAgent) ]
                  ++ flags)).

Definition getSettings (configFile : string) : Result * list Event :=
  match readJsonSync configFile with
  | inl error =>
      (Returns getDefaultSettings,
       [Console ERROR ("Could't read configuration file " +:+ configFile
                       +:+ " " +:+ error)])
  | inr settings => (result_of (normalizeSettings settings), [])
  end.

End First.

End First.

(** *** Notions used by the statements *)

(** A value that is neither [undefined] nor [null]. *)
Definition present (v : JSValue) : Prop := v <> JSUndefined /\ v <> JSNull.

(** [o.name], with [undefined] where the read would throw. *)
Definition read (o : JSValue) (name : string) : JSValue :=
  default JSUndefined (member o name).


(** A settings file whose content parses to an object without members, and
    no other file. *)
Definition emptyObjectFile (configFile : string) : string + JSValue :=
  if String.eqb configFile "settings.json" then inr (JSObject [])
  else inl "Error: ENOENT: no such file or directory".

(** A settings file with a window and shortcuts, some fields of which are
    absent or of the wrong type. *)
Definition partialSettings : JSValue :=
  JSObject
    [ ("Window", JSObject [ ("Left", JSString "10"); ("Width", JSNumber 800) ]);
      ("ShortCuts", JSObject [ ("Global", JSNull) ]);
      ("UserAgent", JSString "");
      ("ClearTraces", JSBool true);
      ("Win32MenuState", JSNumber 7);
      ("Homepage", JSNumber 0) ].

Definition partialFile (configFile : string) : string + JSValue :=
  if String.eqb configFile "settings.json" then inr partialSettings
  else inl "Error: ENOENT: no such file or directory".

End Settings.

(** ** Notions used by the statements *)

Section Notions.

Context {imports : Imports}.

(** What loading the handler of a configuration entry gives: nothing when
    the entry has no source or loading it throws. *)
Definition loaded (entry : Config.URLHandlerEntry)
  : option (string * (string -> URLSource -> HandlerRun)) :=
  if truthy (Config.Source entry) then
    match loadHandlerClass (Config.Source entry) (Config.ClassName entry)
                           (Config.Config entry) with
    | inr class => Some class
    | inl _ => None
    end
  else None.

Definition loads (entry : Config.URLHandlerEntry) : bool :=
  match loaded entry with Some _ => true | None => false end.

(** [handler] is an instance of the class that [entry] names. *)
Definition instance_of (entry : Config.URLHandlerEntry) (handler : URLHandler)
  : Prop :=
  loaded entry = Some (constructor_name handler, handleURL handler).

(** The console entry for an entry whose handler cannot be loaded. *)
Definition loadError (entry : Config.URLHandlerEntry) : option Event :=
  if truthy (Config.Source entry) then
    match loadHandlerClass (Config.Source entry) (Config.ClassName entry)
                           (Config.Config entry) with
    | inr _ => None
    | inl error =>
        Some (Console ERROR ("Error loading URL handler from: "
                             +:+ Config.Source entry +:+ nl +:+ error))
    end
  else None.


(** A result code after which [doHandleURLCallback] does not go on: any
    code but [NONE] and [CONTINUE], that is [STOP], [ERROR] or an unknown
    code. *)
Definition terminal (code : Z) : Prop :=
  code <> HandleURL_NONE /\ code <> HandleURL_CONTINUE.

(** A result code that is none of the four of [HandleURL]. *)
Definition unknown (code : Z) : Prop :=
  code <> HandleURL_ERROR /\ code <> HandleURL_NONE
  /\ code <> HandleURL_CONTINUE /\ code <> HandleURL_STOP.

(** The target the next handler is called with. *)
Definition nextTarget (redirectURL : option string) (target : IURLItem)
  : IURLItem :=
  match redirectTarget redirectURL with
  | Some to => getURLItem to PAGE
  | None => target
  end.

(** *** The dispatch algorithm, in the words of the specification *)

(** The handler calls of a trace. *)
Definition is_call (e : Event) : bool :=
  match e with
  | HandleURL _ _ _ => true
  | _ => false
  end.

Definition calls (t : list Event) : list Event := List.filter is_call t.

(** The three ways a dispatch ends, and the exits of [doHandleURLCallback]
    that end it. *)
Inductive Outcome : Type := Aborted | Handled | Exhausted.

Definition outcome (exit : Exit) : option Outcome :=
  match exit with
  | ReturnedOnError | ReturnedOnUnknown => Some Aborted
  | ReturnedOnStop => Some Handled
  | ReachedEndOfChain => Some Exhausted
  | CalledNextHandler | CaughtException _ | Threw _ => None
  end.

(** A handler keeps the contract: whatever it is called with, it calls back
    exactly once and does not throw. *)
Definition keepsContract (handler : URLHandler) : Prop :=
  forall url source, exists code redirect,
    handleURL handler url source = reply code redirect.

(** The answer of a handler that calls back once without throwing. *)
Definition answer (handler : URLHandler) (target : IURLItem)
  : option (Z * option string) :=
  let run := handleURL handler (URLItem.URL target) (Source target) in
  match callbacks run, raises run with
  | [cb], None => Some cb
  | _, _ => None
  end.

(** One handler call of a dispatch: who was called, with which target, and
    what it answered. *)
Record Step : Type := {
  step_handler : URLHandler;
  step_target : IURLItem;
  step_code : Z;
  step_redirect : option string
}.

Definition call (step : Step) : Event :=
  HandleURL (oid (step_handler step)) (URLItem.URL (step_target step))
            (Source (step_target step)).

(** Section 4.3 of the specification: the handlers are called in order; on
    [Error] the dispatch ends [Aborted] and on [Stop] it ends [Handled]; on
    [None] or [Continue] it goes on with the next handler, if there is one,
    which gets the redirect target when a redirect is present, and ends
    [Exhausted] otherwise; any other code is treated as [Error].  The
    provenance given to a redirect target is the parameter
    [redirectSource]; a redirect is present when the URL is not empty. *)
Fixpoint dispatchFrom (redirectSource : URLSource) (handlers : list URLHandler)
    (target : IURLItem) : list Step * Outcome :=
  match handlers with
  | [] => ([], Exhausted)
  | handler :: rest =>
      match answer handler target with
      | None => ([], Aborted)
      | Some (code, redirect) =>
          let step := {| step_handler := handler; step_target := target;
                         step_code := code; step_redirect := redirect |} in
          if code =? HandleURL_ERROR then ([step], Aborted)
          else if code =? HandleURL_STOP then ([step], Handled)
          else if (code =? HandleURL_NONE) || (code =? HandleURL_CONTINUE) then
            match rest with
            | [] => ([step], Exhausted)
            | _ :: _ =>
                let target' :=
                  match redirectTarget redirect with
                  | Some to => getURLItem to redirectSource
                  | None => target
                  end in
                let (steps, o) := dispatchFrom redirectSource rest target' in
                (step :: steps, o)
            end
          else ([step], Aborted)
      end
  end.

(** The code and the redirect of a step are what its handler answered when
    it was called with the step's target. *)
Definition answered (step : Step) : Prop :=
  handleURL (step_handler step) (URLItem.URL (step_target step))
            (Source (step_target step))
  = reply (step_code step) (step_redirect step).

(** The handlers of the steps are the first handlers of the chain, in the
    order of the chain. *)
Definition in_chain_order (handlers : list URLHandler) (steps : list Step)
  : Prop :=
  step_handler <$> steps = take (length steps) handlers.

(** Every step but the last answered [NONE] or [CONTINUE], and the last
    one decides the outcome: [STOP] gives [Handled], [ERROR] or an unknown
    code [Aborted]; [NONE] or [CONTINUE] gives [Exhausted] and is only
    possible at the last handler of the chain. *)
Definition ends_with (handlers : list URLHandler) (steps : list Step)
    (o : Outcome) : Prop :=
  exists before last,
    steps = before ++ [last]
    /\ Forall (fun step => ~ terminal (step_code step)) before
    /\ ((step_code last = HandleURL_STOP /\ o = Handled)
        \/ ((step_code last = HandleURL_ERROR \/ unknown (step_code last))
            /\ o = Aborted)
        \/ (~ terminal (step_code last) /\ o = Exhausted
            /\ length steps = length handlers)).

End Notions.

(** ** A concrete instance of the imports, for closed examples *)

Module Sample.

(** A target as [getURLItem] could build it: the URL is kept as it is. *)
Definition getURLItem (url : string) (source : URLSource) : IURLItem :=
  {| DoLoad := truthy url; URLItem.URL := url; OriginalURL := url;
     Source := source |}.

Definition ERROR : Z := 0.
Definition NONE : Z := 1.
Definition CONTINUE : Z := 2.
Definition STOP : Z := 3.

(** Two handler classes can be loaded: one never handles a URL, the other
    always stops the chain. *)
Definition loadHandlerClass (source className config : string)
  : string + (string * (string -> URLSource -> HandlerRun)) :=
  if String.eqb source "./lib/LoggerURLHandler.js"
  then inr (className, fun _ _ => reply NONE None)
  else if String.eqb source "./lib/DefaultURLHandler.js"
  then inr (className, fun _ _ => reply STOP None)
  else inl ("Error: Cannot find module '" +:+ source +:+ "'").

Lemma codes_distinct : NoDup [ERROR; NONE; CONTINUE; STOP].
Proof. unfold ERROR, NONE, CONTINUE, STOP. compute_done. Qed.

Definition imports : Imports :=
  Build_Imports ERROR NONE CONTINUE STOP codes_distinct
                getURLItem (fun _ _ => eq_refl) loadHandlerClass.

(** The DOM and the renderer as the constructor finds them: nothing is
    shown, no handler is loaded, the history holds the blank page. *)
Definition dom0 : DOM :=
  {| spinner_visibility := hidden; webView_src := ""; window_title := "";
     urlField_value := ""; goBackButton_disabled := true;
     goForwardButton_disabled := true |}.

Definition renderer (entries : list Config.URLHandlerEntry)
    (handlers : list URLHandler) : Renderer :=
  {| settings := {| Config.URLHandlers := entries;
                    Config.Permissions := ["fullscreen"] |};
     appInfo_Name := "SingleInstanceBrowser";
     URLHandlers := handlers; currentURLHandler := None;
     history := BrowserHistory.create blankPage; currentHistoryItem := None;
     currentURLItem := None; errorPage := ""; dom := dom0;
     timers := []; trace := [] |}.

(** Three handlers: one answers [CONTINUE], one [STOP], and one answers
    [NONE] with a redirect. *)
Definition continues : URLHandler :=
  {| oid := 1; constructor_name := "H1";
     handleURL := fun _ _ => reply CONTINUE None |}.

Definition stops : URLHandler :=
  {| oid := 2; constructor_name := "H2";
     handleURL := fun _ _ => reply STOP None |}.

Definition redirects : URLHandler :=
  {| oid := 1; constructor_name := "H1";
     handleURL := fun _ _ => reply NONE (Some "http://redirected.example/") |}.

(** A configuration entry whose handler is to be loaded but is not active. *)
Definition inactiveEntry : Config.URLHandlerEntry :=
  {| Config.Load := true; Config.Active := false;
     Config.Source := "./lib/LoggerURLHandler.js";
     Config.ClassName := "LoggerURLHandler"; Config.Config := "{}" |}.

Definition target : IURLItem := getURLItem "http://start.example/" USER.

(** The renderer in the middle of a dispatch: [loadURL] has called the
    first handler of the chain and its callback is pending. *)
Definition dispatching (handlers : list URLHandler) : Renderer :=
  fst (loadURL target true (renderer [] handlers)).

End Sample.

(** ** The rest of the class *)

(** *** Notions used by the further statements *)


(** The installations of the permission request handler in a trace. *)
Definition is_installation (e : Event) : bool :=
  match e with
  | SetPermissionRequestHandler => true
  | _ => false
  end.

Definition installations (t : list Event) : list Event :=
  List.filter is_installation t.

(** *** [encodeURI] *)

(** The characters [encodeURI] leaves as they are: letters, digits and
    [; / ? : @ & = + $ , - _ . ! ~ * ' ( ) #]. *)
Definition uriUnescaped (c : ascii) : bool :=
  let n := nat_of_ascii c in
  ((65 <=? n) && (n <=? 90))%nat || ((97 <=? n) && (n <=? 122))%nat
  || ((48 <=? n) && (n <=? 57))%nat
  || existsb (Ascii.eqb c) (list_ascii_of_string ";/?:@&=+$,-_.!~*'()#").

Definition hexDigit (n : nat) : ascii :=
  nth n (list_ascii_of_string "0123456789ABCDEF") "0"%char.

(** [encodeURI(s)], a string being the sequence of its UTF-8 bytes: every
    byte that is not left as it is becomes [%XX]. *)
Fixpoint encodeURI (s : string) : string :=
  match s with
  | EmptyString => EmptyString
  | String c s' =>
      if uriUnescaped c then String c (encodeURI s')
      else String "%"%char
             (String (hexDigit (nat_of_ascii c / 16))
                (String (hexDigit (nat_of_ascii c mod 16)) (encodeURI s')))
  end.

(** *** Events of the web view that only concern the renderer's state *)

Definition set_errorPage (v : string) (r : Renderer) : Renderer :=
  {| settings := settings r; appInfo_Name := appInfo_Name r;
     URLHandlers := URLHandlers r; currentURLHandler := currentURLHandler r;
     history := history r; currentHistoryItem := currentHistoryItem r;
     currentURLItem := currentURLItem r; errorPage := v;
     dom := dom r; timers := timers r; trace := trace r |}.

(** The page shown for a failed load. *)
Definition errorPageFor (validatedURL : string) (errorCode : Z)
    (errorDescription : string) : string :=
  encodeURI
    ("data:text/html,<html><head></head><body>"
     +:+ "<p>Error loading page: <em>" +:+ validatedURL +:+ "</em></p>"
     +:+ "<p>Code: <code>" +:+ numberToString errorCode +:+ "</code></p>"
     +:+ "<p>Description: <code>" +:+ errorDescription +:+ "</code></p>"
     +:+ "</body></html>").

Definition onDidFailLoad (isMainFrame : bool) (validatedURL : string)
    (errorCode : Z) (errorDescription : string) (r : Renderer) : Renderer :=
  if isMainFrame then
    let r1 := set_errorPage
                (errorPageFor validatedURL errorCode errorDescription) r in
    set_webView_src (errorPage r1) r1
  else
    console_error ("Error loading page: " +:+ validatedURL +:+ nl
                   +:+ "Code: " +:+ numberToString errorCode +:+ nl
                   +:+ "Description: " +:+ errorDescription) r.

(** *** The window around the renderer *)

(** Calls to the web view, the main process and the URL field that the
    methods below make.  They are recorded apart from the renderer's
    trace; the order between the two is not kept. *)
Inductive Call : Type :=
| WebView_send (channel : string) (args : list Settings.JSValue)
| IpcRenderer_send (args : list Settings.JSValue)
| UrlField_focus
| UrlField_select
| Document_dispatchEvent (type dict : Settings.JSValue).

(** The renderer with the fields and settings that the keyboard shortcuts
    and the remaining event handlers use. *)
Record Application : Type := {
  renderer : Renderer;
  AllowNewWindows : bool;
  Homepage : string;
  addressBar_display : string;
  reloadIssued : bool;
  webViewScrollOffset_x : Settings.JSValue;
  webViewScrollOffset_y : Settings.JSValue;
  outbox : list Call
}.

Definition set_renderer (v : Renderer) (a : Application) : Application :=
  {| renderer := v; AllowNewWindows := AllowNewWindows a;
     Homepage := Homepage a; addressBar_display := addressBar_display a;
     reloadIssued := reloadIssued a;
     webViewScrollOffset_x := webViewScrollOffset_x a;
     webViewScrollOffset_y := webViewScrollOffset_y a; outbox := outbox a |}.

Definition set_addressBar_display (v : string) (a : Application) : Application :=
  {| renderer := renderer a; AllowNewWindows := AllowNewWindows a;
     Homepage := Homepage a; addressBar_display := v;
     reloadIssued := reloadIssued a;
     webViewScrollOffset_x := webViewScrollOffset_x a;
     webViewScrollOffset_y := webViewScrollOffset_y a; outbox := outbox a |}.

Definition set_reloadIssued (v : bool) (a : Application) : Application :=
  {| renderer := renderer a; AllowNewWindows := AllowNewWindows a;
     Homepage := Homepage a; addressBar_display := addressBar_display a;
     reloadIssued := v;
     webViewScrollOffset_x := webViewScrollOffset_x a;
     webViewScrollOffset_y := webViewScrollOffset_y a; outbox := outbox a |}.

Definition set_webViewScrollOffset (x y : Settings.JSValue) (a : Application)
  : Application :=
  {| renderer := renderer a; AllowNewWindows := AllowNewWindows a;
     Homepage := Homepage a; addressBar_display := addressBar_display a;
     reloadIssued := reloadIssued a;
     webViewScrollOffset_x := x; webViewScrollOffset_y := y;
     outbox := outbox a |}.

Definition post (c : Call) (a : Application) : Application :=
  {| renderer := renderer a; AllowNewWindows := AllowNewWindows a;
     Homepage := Homepage a; addressBar_display := addressBar_display a;
     reloadIssued := reloadIssued a;
     webViewScrollOffset_x := webViewScrollOffset_x a;
     webViewScrollOffset_y := webViewScrollOffset_y a;
     outbox := outbox a ++ [c] |}.

(** A method of the renderer, run in the window. *)
Definition inRenderer (f : Renderer -> Renderer * Completion) (a : Application)
  : Application * Completion :=
  let (r, c) := f (renderer a) in (set_renderer r a, c).

Section Window.

Context {imports : Imports}.


(** The shortcut [ToggleAddressBar]. *)
Definition toggleAddressBar (a : Application) : Application :=
  if String.eqb (addressBar_display a) "none"
  then set_addressBar_display "" a
  else set_addressBar_display "none" a.

(** The shortcut [FocusLocationBar]. *)
Definition focusLocationBar (a : Application) : Application :=
  let a1 := if String.eqb (addressBar_display a) "none"
            then set_addressBar_display "" a else a in
  post UrlField_select (post UrlField_focus a1).

(** The shortcut [Reload].  [loadURL] reads [urlItem.OriginalURL] only when
    there are handlers; without a current target that read throws. *)
Definition reload (a : Application) : Application * Completion :=
  let a1 := post (WebView_send "IPCFromRenderer"
                    [Settings.JSString "getScrollOffset"]) a in
  let a2 := set_reloadIssued true a1 in
  match currentURLItem (renderer a2) with
  | Some item => inRenderer (loadURL item false) a2
  | None =>
      match URLHandlers (renderer a2) with
      | [] => inRenderer (loadURL {| DoLoad := false; URLItem.URL := "";
                                     OriginalURL := ""; Source := USER |}
                                  false) a2
      | _ :: _ => (a2, Thrown TypeError)
      end
  end.

Definition onDOMReady (a : Application) : Application :=
  if reloadIssued a then
    post (WebView_send "IPCFromRenderer"
            [Settings.JSString "scrollToOffset";
             Settings.JSObject [("x", webViewScrollOffset_x a);
                                ("y", webViewScrollOffset_y a)]])
         (set_reloadIssued false a)
  else a.

(** [event.args[i]] *)
Definition arg (args : list Settings.JSValue) (i : nat) : Settings.JSValue :=
  default Settings.JSUndefined (args !! i).

(** [v === s] for a string literal [s]. *)
Definition is_string (s : string) (v : Settings.JSValue) : bool :=
  match v with
  | Settings.JSString s' => String.eqb s' s
  | _ => false
  end.

(** [onWebViewIPCMessage].  [newKeyboardEvent type dict] is the error, if
    any, that [new KeyboardEvent(type, dict)] throws.  What the listeners of
    the document do with a dispatched event is not part of this method. *)
Definition onWebViewIPCMessage
    (newKeyboardEvent : Settings.JSValue -> Settings.JSValue -> option string)
    (channel : string) (args : list Settings.JSValue) (a : Application)
  : Application :=
  if String.eqb channel "IPCFromWebView" then
    if is_string "setScrollOffset" (arg args 0) then
      set_webViewScrollOffset (arg args 1) (arg args 2) a
    else if is_string "keyboardEvent" (arg args 0) then
      match Settings.member (arg args 1) "type",
            Settings.member (arg args 1) "dict" with
      | Some type, Some dict =>
          match newKeyboardEvent type dict with
          | None => post (Document_dispatchEvent type dict) a
          | Some error =>
              set_renderer
                (console_error ("Error handling KB event from webview: "
                                +:+ error) (renderer a)) a
          end
      | _, _ =>
          set_renderer
            (console_error ("Error handling KB event from webview: "
                            +:+ TypeError) (renderer a)) a
      end
    else a
  else a.

(** The dispositions for which [onNewWindow] opens a window. *)
Definition windowDispositions : list string :=
  ["default"; "foreground-tab"; "background-tab"; "new-window"; "other"].

Definition onNewWindow (disposition url : string) (a : Application)
  : Application :=
  if AllowNewWindows a then
    if negb (indexOf (String.eqb disposition) windowDispositions =? -1)
    then post (IpcRenderer_send [Settings.JSString "openWindow";
                                 Settings.JSString url]) a
    else a
  else a.

End Window.

(** *** Well-typed settings *)




(** *** Further sample states *)

Module Scenario.

(** A handler whose [handleURL] throws without calling back. *)
Definition throws : URLHandler :=
  {| oid := 3; constructor_name := "H3";
     handleURL := fun _ _ => {| callbacks := []; raises := Some "Error: boom" |} |}.

(** The window at startup: the address bar is hidden, nothing was sent. *)
Definition window (homepage : string) (r : Renderer) : Application :=
  {| renderer := r; AllowNewWindows := true; Homepage := homepage;
     addressBar_display := "none"; reloadIssued := false;
     webViewScrollOffset_x := Settings.JSNumber 0;
     webViewScrollOffset_y := Settings.JSNumber 0; outbox := [] |}.

(** The settings [getSettings] makes of [Settings.partialSettings], with no
    trimming and no substitution to do. *)
Definition savedSettings : Settings.JSValue :=
  default Settings.JSUndefined
    (Settings.normalizeSettings "Mozilla/5.0" "/opt/app" (fun s => s)
       (fun s _ => s) Settings.partialSettings).

(** [settings.json] holds [Settings.partialSettings] and [saved.json] what
    [getSettings] returned for it. *)
Definition savedFiles (configFile : string) : string + Settings.JSValue :=
  if String.eqb configFile "settings.json" then inr Settings.partialSettings
  else if String.eqb configFile "saved.json" then inr savedSettings
  else inl "Error: ENOENT: no such file or directory".

End Scenario.

(** * Properties *)

(** ** Arrays *)

Lemma indexOf_lower_bound {A : Type} (same : A -> bool) (l : list A) :
  -1 <= indexOf same l.
Proof.
  induction l as [|y l IH]; simpl; [lia|].
  destruct (same y); [lia|].
  destruct (indexOf same l <? 0) eqn:E; [lia|].
  apply Z.ltb_ge in E. lia.
Qed.

Lemma indexOf_found {A : Type} (same : A -> bool) (l : list A) :
  (indexOf same l >? -1) = existsb same l.
Proof.
  induction l as [|y l IH]; simpl; [reflexivity|].
  destruct (same y); simpl; [reflexivity|].
  rewrite <- IH. rewrite !Z.gtb_ltb.
  pose proof (indexOf_lower_bound same l) as Hlow.
  destruct (Z.ltb_spec (indexOf same l) 0);
    destruct (Z.ltb_spec (-1) (indexOf same l)); lia.
Qed.

(** The index of the first element satisfying [same], when the elements
    before it do not. *)
Lemma indexOf_middle {A : Type} (same : A -> bool) (pre : list A) (x : A)
    (post : list A) :
  Forall (fun y => same y = false) pre -> same x = true ->
  indexOf same (pre ++ x :: post) = Z.of_nat (length pre).
Proof.
  intros Hpre Hx. induction Hpre as [|y pre Hy _ IH]; simpl.
  - rewrite Hx. reflexivity.
  - rewrite Hy, IH.
    destruct (Z.of_nat (length pre) <? 0) eqn:E; [apply Z.ltb_lt in E|]; lia.
Qed.

Lemma index_of_nat {A : Type} (l : list A) (n : nat) :
  index l (Z.of_nat n) = l !! n.
Proof.
  unfold index. destruct (Z.of_nat n <? 0) eqn:E.
  - apply Z.ltb_lt in E. lia.
  - rewrite Nat2Z.id. reflexivity.
Qed.

(** ** The permission hook *)

Section Permission.

Context {imports : Imports}.

Lemma grant_iff (permission : string) (r : Renderer) :
  grant permission r = true <-> In permission (Config.Permissions (settings r)).
Proof.
  unfold grant. rewrite indexOf_found, existsb_exists. split.
  - intros (x & Hx & E). apply String.eqb_eq in E. subst. exact Hx.
  - intros H. exists permission. split; [exact H|apply String.eqb_refl].
Qed.

(** C9.  [onPermissionRequest] answers a request through its callback, once,
    and the answer is [true] exactly when the requested permission occurs in
    [settings.Permissions]. *)
Theorem onPermissionRequest_grants_listed (permission : string) (r : Renderer) :
  exists message granted,
    trace (onPermissionRequest permission r)
    = trace r ++ [Console INFO message; PermissionCallback granted]
    /\ (granted = true <-> In permission (Config.Permissions (settings r))).
Proof.
  eexists _, (grant permission r). split.
  - unfold onPermissionRequest, console_info, emit. simpl.
    rewrite <- app_assoc. reflexivity.
  - apply grant_iff.
Qed.

End Permission.

(** ** Loading the handlers *)

Section Loading.

Context {imports : Imports}.

Lemma truthy_not_empty (s : string) :
  truthy s && negb (String.eqb s "") = truthy s.
Proof. unfold truthy. destruct (String.eqb s ""); reflexivity. Qed.

Lemma loadURLHandler_settings entry r :
  settings (loadURLHandler entry r) = settings r.
Proof.
  unfold loadURLHandler.
  destruct (_ && _); [|reflexivity].
  destruct (loadHandlerClass _ _ _) as [error|[name behaviour]]; reflexivity.
Qed.

(** C2, as the code has it.  The chain built by [loadURLHandlers] holds, after
    the handlers it held before, one new instance for each configuration
    entry whose [Source] is not empty and whose class loads without an
    exception, in the order of the configuration; [Load] and [Active] are not
    read.  Each entry whose class fails to load leaves one error on the
    console and the loop goes on with the entries after it. *)
Theorem loadURLHandlers_chain (r : Renderer) :
  let entries := Config.URLHandlers (settings r) in
  exists new,
    URLHandlers (loadURLHandlers r) = URLHandlers r ++ new
    /\ Forall2 instance_of (List.filter loads entries) new
    /\ trace (loadURLHandlers r) = trace r ++ omap loadError entries.
Proof.
  unfold loadURLHandlers. cbv zeta.
  generalize (Config.URLHandlers (settings r)). intros entries. revert r.
  induction entries as [|entry entries IH]; intros r; simpl.
  - exists []. rewrite !app_nil_r. repeat split. constructor.
  - destruct (IH (loadURLHandler entry r)) as (new & Hh & Hnew & Ht).
    rewrite Hh, Ht. clear IH Hh Ht.
    unfold loadURLHandler. rewrite truthy_not_empty.
    assert (Hloads : loads entry = match loaded entry with
                                   | Some _ => true | None => false end)
      by reflexivity.
    assert (Hinst : forall h, instance_of entry h
              <-> loaded entry = Some (constructor_name h, handleURL h))
      by (intros h; reflexivity).
    unfold loaded in Hloads, Hinst. unfold loadError at 2.
    destruct (truthy (Config.Source entry)); simpl.
    + destruct (loadHandlerClass _ _ _) as [error|[name behaviour]]; simpl;
        rewrite Hloads.
      * exists new. rewrite <- app_assoc. repeat split; assumption.
      * eexists (_ :: new). rewrite <- app_assoc. simpl.
        repeat split. constructor; [|exact Hnew]. apply Hinst. reflexivity.
    + rewrite Hloads. exists new. repeat split; assumption.
Qed.

(** The handlers of the chain are distinct objects. *)
Lemma fresh_oid_fresh (l : list URLHandler) : fresh_oid l ∉ oid <$> l.
Proof.
  unfold fresh_oid. intros H. apply list_elem_of_In in H.
  change (oid <$> l) with (map oid l) in H.
  pose proof (list_max_le (map oid l) (list_max (map oid l))) as [Hle _].
  specialize (Hle (Nat.le_refl _)).
  rewrite List.Forall_forall in Hle. apply Hle in H. lia.
Qed.

Lemma loadURLHandler_distinct entry r :
  NoDup (oid <$> URLHandlers r) ->
  NoDup (oid <$> URLHandlers (loadURLHandler entry r)).
Proof.
  intros H. unfold loadURLHandler.
  destruct (_ && _); [|exact H].
  destruct (loadHandlerClass _ _ _) as [error|[name behaviour]]; [exact H|].
  simpl. rewrite fmap_app. apply NoDup_app. repeat split.
  - exact H.
  - intros x Hx Hx'. apply list_elem_of_singleton in Hx'. subst x.
    exact (fresh_oid_fresh _ Hx).
  - apply NoDup_singleton.
Qed.

Lemma loadURLHandlers_distinct (r : Renderer) :
  NoDup (oid <$> URLHandlers r) ->
  NoDup (oid <$> URLHandlers (loadURLHandlers r)).
Proof.
  unfold loadURLHandlers. generalize (Config.URLHandlers (settings r)).
  intros entries. revert r.
  induction entries as [|entry entries IH]; intros r H; simpl; [exact H|].
  apply IH, loadURLHandler_distinct, H.
Qed.

End Loading.

(** ** Calling a handler *)

Ltac code_tests :=
  repeat match goal with
         | |- context [?a =? ?a] => rewrite (Z.eqb_refl a)
         | H : ?a <> ?b |- context [?a =? ?b] =>
             rewrite (proj2 (Z.eqb_neq a b) H)
         | H : ?b <> ?a |- context [?a =? ?b] =>
             rewrite (proj2 (Z.eqb_neq a b) (not_eq_sym H))
         end.

Lemma callbacks_scheduled (cbs : list (Z * option string)) (r : Renderer) :
  fold_left (fun r cb => handleURLCallback (fst cb) (snd cb) r) cbs r
  = set_timers (timers r ++ cbs) r.
Proof.
  revert r. induction cbs as [|cb cbs IH]; intros r; simpl.
  - destruct r. unfold set_timers. simpl. rewrite app_nil_r. reflexivity.
  - rewrite IH. destruct cb, r. unfold handleURLCallback, set_timers. simpl.
    rewrite <- app_assoc. reflexivity.
Qed.

(** A call of [handleURL] adds the call to the trace and the handler's
    callbacks to the timers, and changes nothing else. *)
Lemma callHandleURL_eq handler url source r :
  callHandleURL handler url source r
  = (set_timers (timers r ++ callbacks (handleURL handler url source))
       (emit (HandleURL (oid handler) url source) r),
     match raises (handleURL handler url source) with
     | Some e => Thrown e
     | None => Normal
     end).
Proof. unfold callHandleURL. rewrite callbacks_scheduled. reflexivity. Qed.

(** ** Loading a URL *)

Lemma loadURL_without_history urlItem r :
  let r' := fst (loadURL urlItem false r) in
  history r' = history r /\ currentHistoryItem r' = currentHistoryItem r.
Proof.
  unfold loadURL. destruct (URLHandlers r); [split; reflexivity|].
  destruct (String.eqb _ _); [split; reflexivity|].
  rewrite callHandleURL_eq. split; reflexivity.
Qed.

(** C6, as the code has it.  For a target whose original URL is the blank
    page, and for either value of [updateHistory]: when at least one handler
    is configured, [loadURL] puts the empty page into the web view, sets the
    window title to the application's name and returns, leaving the history,
    the cursor, the current handler and target, the timers and the trace as
    they were, so that no handler is called; when no handler is configured it
    only writes a warning to the console and renders nothing, and the history
    is untouched and no handler is called either. *)
Theorem loadURL_blank_page (urlItem : IURLItem) (updateHistory : bool)
    (r : Renderer) :
  OriginalURL urlItem = blankPage ->
  let r' := fst (loadURL urlItem updateHistory r) in
  snd (loadURL urlItem updateHistory r) = Normal
  /\ history r' = history r
  /\ currentHistoryItem r' = currentHistoryItem r
  /\ currentURLHandler r' = currentURLHandler r
  /\ currentURLItem r' = currentURLItem r
  /\ timers r' = timers r
  /\ (URLHandlers r <> [] ->
      webView_src (dom r') = blankPageContent
      /\ window_title (dom r') = appInfo_Name r
      /\ trace r' = trace r)
  /\ (URLHandlers r = [] ->
      dom r' = dom r
      /\ trace r'
         = trace r ++ [Console WARN "loadURL: No URL handlers are configured!"]).
Proof.
  intros Hblank. unfold loadURL. rewrite Hblank. simpl.
  destruct (URLHandlers r) as [|first rest]; simpl;
    repeat split; try reflexivity; intros; congruence.
Qed.

(** ** Back and forward *)

Section Navigation.

Context {imports : Imports}.


Lemma goTo_neighbour neighbour r item target item' :
  currentItem r = Some item -> neighbour item = Some target ->
  store (history r) !! target = Some item' ->
  goTo neighbour r
  = loadURL (getURLItem (BrowserHistory.URL item') USER) false
            (set_currentHistoryItem (Some target) r).
Proof.
  intros Hc Hn Ht. unfold goTo. rewrite Hc, Hn.
  unfold currentItem at 1. simpl. rewrite Ht. reflexivity.
Qed.


End Navigation.

(** ** The back and forward buttons *)

Section HistoryButtons.

Context {imports : Imports}.





(** The two event handlers end normally in every state the class can be in
    after its constructor: with fewer than two history entries the cursor is
    not read, and a history of two or more entries has a cursor. *)
Lemma updateHistoryButtons_completes r :
  (Size (history r) < 2)%nat \/ is_Some (currentItem r) ->
  snd (updateHistoryButtons r) = Normal.
Proof.
  intros H. unfold updateHistoryButtons.
  assert (Hd : forall neighbour, is_Some (historyButtonDisabled neighbour r)).
  { intros neighbour. unfold historyButtonDisabled.
    destruct (Nat.ltb_spec (Size (history r)) 2) as [Hlt|Hge]; [eauto|].
    destruct H as [H|[item H]]; [lia|]. rewrite H. eauto. }
  destruct (Hd Previous) as [back Hb]. rewrite Hb.
  change (historyButtonDisabled Next (set_goBackButton_disabled back r))
    with (historyButtonDisabled Next r).
  destruct (Hd Next) as [forward Hf]. rewrite Hf. reflexivity.
Qed.

Lemma onDidNavigate_completes event_url r :
  (Size (history r) < 2)%nat \/ is_Some (currentItem r) ->
  event_url = blankPageContent \/ event_url <> errorPage r
  \/ is_Some (currentURLItem r) ->
  snd (onDidNavigate event_url r) = Normal.
Proof.
  intros Hh Hu. unfold onDidNavigate.
  destruct (String.eqb_spec event_url blankPageContent) as [Hb|Hb];
    [apply updateHistoryButtons_completes; exact Hh|].
  destruct (String.eqb_spec event_url (errorPage r)) as [He|He];
    [|apply updateHistoryButtons_completes; exact Hh].
  destruct Hu as [Hu|[Hu|[item Hu]]]; try contradiction.
  unfold currentURL. rewrite Hu. simpl.
  apply updateHistoryButtons_completes; exact Hh.
Qed.

Lemma addOrUpdateItem_item url h :
  is_Some (store h !! Current h) ->
  is_Some (store (fst (addOrUpdateItem url h)) !! snd (addOrUpdateItem url h)).
Proof.
  intros [cur Hc]. unfold addOrUpdateItem. rewrite Hc.
  destruct (String.eqb url (BrowserHistory.URL cur)); simpl; [eauto|].
  rewrite lookup_app_r by (rewrite length_insert; lia).
  rewrite length_insert, Nat.sub_diag. simpl. eauto.
Qed.

Lemma onDidNavigateInPage_completes event_url r :
  is_Some (store (history r) !! Current (history r)) ->
  snd (onDidNavigateInPage event_url r) = Normal.
Proof.
  intros H. unfold onDidNavigateInPage.
  pose proof (addOrUpdateItem_item
                (URLItem.URL (getURLItem event_url PAGE)) _ H) as Hi.
  destruct (addOrUpdateItem _ _) as [h item]. simpl in Hi.
  apply updateHistoryButtons_completes. right. exact Hi.
Qed.

End HistoryButtons.

(** ** One run of the continuation *)

Section Continuation.

Context {imports : Imports}.

Lemma codes_differ :
  HandleURL_ERROR <> HandleURL_NONE /\ HandleURL_ERROR <> HandleURL_CONTINUE
  /\ HandleURL_ERROR <> HandleURL_STOP /\ HandleURL_NONE <> HandleURL_CONTINUE
  /\ HandleURL_NONE <> HandleURL_STOP /\ HandleURL_CONTINUE <> HandleURL_STOP.
Proof.
  pose proof HandleURL_distinct as H.
  rewrite !NoDup_cons, !not_elem_of_cons in H. intuition congruence.
Qed.

Lemma terminal_cases (code : Z) :
  terminal code
  <-> code = HandleURL_STOP \/ code = HandleURL_ERROR \/ unknown code.
Proof.
  pose proof codes_differ as (? & ? & ? & ? & ? & ?).
  unfold terminal, unknown. split.
  - intros [Hn Hc].
    destruct (Z.eq_dec code HandleURL_STOP); [tauto|].
    destruct (Z.eq_dec code HandleURL_ERROR); tauto.
  - intros [->|[->|(? & ? & ? & ?)]]; split; congruence.
Qed.

Lemma finallyBlock_hides (code : Z) (r : Renderer) :
  finallyBlock code r
  = if decide (terminal code) then set_spinner_visibility hidden r else r.
Proof.
  unfold finallyBlock, terminal.
  destruct (Z.eqb_spec code HandleURL_NONE), (Z.eqb_spec code HandleURL_CONTINUE);
    simpl; case_decide; tauto.
Qed.

(** The [switch] ends by [break] only for [NONE] and [CONTINUE]. *)
Lemma switchOnResult_break code name logMsg r r1 :
  switchOnResult code name logMsg r = (r1, None) -> ~ terminal code.
Proof.
  unfold switchOnResult, terminal.
  destruct (Z.eqb_spec code HandleURL_ERROR);
    [destruct (currentURL r); discriminate|].
  destruct (Z.eqb_spec code HandleURL_NONE); [tauto|].
  destruct (Z.eqb_spec code HandleURL_CONTINUE); [tauto|].
  destruct (Z.eqb_spec code HandleURL_STOP); [discriminate|].
  destruct (currentURL r); discriminate.
Qed.

Lemma switchOnResult_dom code name logMsg r :
  dom (fst (switchOnResult code name logMsg r)) = dom r.
Proof.
  unfold switchOnResult.
  repeat (destruct (_ =? _)); try destruct (currentURL r); reflexivity.
Qed.

Lemma proceed_dom redirectURL next r :
  dom (fst (proceed redirectURL next r)) = dom r.
Proof.
  unfold proceed. destruct next as [next|]; [|reflexivity].
  set (r1 := match redirectTarget redirectURL with
             | Some to => _ | None => r end).
  assert (Hr1 : dom r1 = dom r)
    by (subst r1; destruct (redirectTarget _); reflexivity).
  destruct (currentURLItem (set_currentURLHandler (Some next) r1));
    [|exact Hr1].
  rewrite callHandleURL_eq. destruct (raises _); exact Hr1.
Qed.

Lemma tryBlock_dom code redirectURL next name logMsg r :
  dom (fst (tryBlock code redirectURL next name logMsg r)) = dom r.
Proof.
  unfold tryBlock.
  pose proof (switchOnResult_dom code name logMsg r) as Hs.
  destruct (switchOnResult code name logMsg r) as [r1 [exit|]]; [exact Hs|].
  simpl in Hs. rewrite <- Hs.
  unfold logRedirect.
  destruct (redirectTarget redirectURL); [destruct (currentURL r1)|];
    simpl; try reflexivity; rewrite proceed_dom; reflexivity.
Qed.

Lemma tryBlock_end_of_chain code redirectURL next name logMsg r r1 :
  tryBlock code redirectURL next name logMsg r = (r1, ReachedEndOfChain) ->
  ~ terminal code.
Proof.
  unfold tryBlock.
  destruct (switchOnResult code name logMsg r) as [r0 [exit|]] eqn:Hs.
  - intros [= <- ->]. revert Hs. unfold switchOnResult.
    repeat (destruct (_ =? _)); try destruct (currentURL r); discriminate.
  - intros _. exact (switchOnResult_break _ _ _ _ _ Hs).
Qed.

Lemma catchBlock_dom name res : dom (fst (catchBlock name res)) = dom (fst res).
Proof.
  unfold catchBlock. destruct res as [r []]; try reflexivity.
  destruct (currentURL r); reflexivity.
Qed.

Lemma catchBlock_end_of_chain name res r1 :
  catchBlock name res = (r1, ReachedEndOfChain) -> res = (r1, ReachedEndOfChain).
Proof.
  unfold catchBlock. destruct res as [r []]; try (intros [= <-]; reflexivity).
  destruct (currentURL r); discriminate.
Qed.

(** C8.  In a run of [doHandleURLCallback] (a handler is current, the
    indicator is showing), the indicator is hidden at the end exactly when
    the result code is terminal, that is [STOP], [ERROR] or an unknown code;
    after [NONE] or [CONTINUE] it is still showing, also when the run found no
    next handler and ended the chain. *)
Theorem spinner_hidden_iff_terminal (code : Z) (redirectURL : option string)
    (r : Renderer) (current : URLHandler) :
  currentURLHandler r = Some current ->
  spinner_visibility (dom r) = visible ->
  let r' := fst (doHandleURLCallback code redirectURL r) in
  let exit := snd (doHandleURLCallback code redirectURL r) in
  (spinner_visibility (dom r') = hidden
   <-> code = HandleURL_STOP \/ code = HandleURL_ERROR \/ unknown code)
  /\ (code = HandleURL_NONE \/ code = HandleURL_CONTINUE ->
      spinner_visibility (dom r') = visible)
  /\ (exit = ReachedEndOfChain -> spinner_visibility (dom r') = visible).
Proof.
  intros Hcur Hvis. unfold doHandleURLCallback. rewrite Hcur.
  set (next := index _ _). set (logMsg := match next with Some _ => _ | None => _ end).
  pose proof (tryBlock_dom code redirectURL next (constructor_name current) logMsg r)
    as Hdom.
  pose proof (tryBlock_end_of_chain code redirectURL next
                (constructor_name current) logMsg r) as Hend.
  pose proof (catchBlock_dom (constructor_name current)
                (tryBlock code redirectURL next (constructor_name current) logMsg r))
    as Hcatch.
  pose proof (catchBlock_end_of_chain (constructor_name current)
                (tryBlock code redirectURL next (constructor_name current) logMsg r))
    as Hcatch_end.
  destruct (catchBlock _ _) as [r1 exit]. simpl in *.
  rewrite Hdom in Hcatch. rewrite finallyBlock_hides, <- terminal_cases.
  assert (Hne : hidden <> visible) by discriminate.
  case_decide as Ht; simpl; rewrite ?Hcatch, ?Hvis.
  - split; [tauto|]. split.
    + intros [->| ->]; destruct Ht; congruence.
    + intros ->. destruct (tryBlock _ _ _ _ _ _) as [r2 e2].
      specialize (Hcatch_end r1 eq_refl). injection Hcatch_end as -> ->.
      destruct (Hend r1 eq_refl Ht).
  - split; [|tauto]. split; [intros H; symmetry in H; contradiction|tauto].
Qed.

Lemma doHandleURLCallback_error redirectURL r current target :
  currentURLHandler r = Some current ->
  currentURLItem r = Some target ->
  exists message,
    doHandleURLCallback HandleURL_ERROR redirectURL r
    = (set_spinner_visibility hidden (console_error message r), ReturnedOnError).
Proof.
  intros Hcur Hitem.
  pose proof codes_differ as (? & ? & ? & ? & ? & ?).
  unfold doHandleURLCallback. rewrite Hcur.
  unfold tryBlock, switchOnResult, currentURL. rewrite Hitem.
  code_tests. cbn [fmap option_fmap option_map catchBlock].
  rewrite finallyBlock_hides, decide_True by (split; assumption).
  eexists. reflexivity.
Qed.

Lemma doHandleURLCallback_stop redirectURL r current target :
  currentURLHandler r = Some current ->
  currentURLItem r = Some target ->
  exists message,
    doHandleURLCallback HandleURL_STOP redirectURL r
    = (set_spinner_visibility hidden (console_log message r), ReturnedOnStop).
Proof.
  intros Hcur Hitem.
  pose proof codes_differ as (? & ? & ? & ? & ? & ?).
  unfold doHandleURLCallback. rewrite Hcur.
  unfold tryBlock, switchOnResult, currentURL. rewrite Hitem.
  code_tests. cbn [fmap option_fmap option_map catchBlock].
  rewrite finallyBlock_hides, decide_True by (split; congruence).
  eexists. reflexivity.
Qed.

Lemma doHandleURLCallback_unknown code redirectURL r current target :
  currentURLHandler r = Some current ->
  currentURLItem r = Some target ->
  unknown code ->
  exists message,
    doHandleURLCallback code redirectURL r
    = (set_spinner_visibility hidden (console_error message r), ReturnedOnUnknown).
Proof.
  intros Hcur Hitem (He & Hn & Hc & Hs).
  unfold doHandleURLCallback. rewrite Hcur.
  unfold tryBlock, switchOnResult, currentURL. rewrite Hitem.
  code_tests. cbn [fmap option_fmap option_map catchBlock].
  rewrite finallyBlock_hides, decide_True by (split; assumption).
  eexists. reflexivity.
Qed.

(** C7.  In a run of [doHandleURLCallback] (a handler and a target are
    current), a result code that is none of the four does what [ERROR] does:
    the run writes one error to the console, hides the indicator and returns.
    Apart from the text of the message the two states are the same, so no
    handler is called, no timer is added and the current target is not
    replaced by a redirect. *)
Theorem unknown_result_like_error (code : Z) (redirectURL : option string)
    (r : Renderer) (current : URLHandler) (target : IURLItem) :
  currentURLHandler r = Some current ->
  currentURLItem r = Some target ->
  unknown code ->
  exists message message',
    doHandleURLCallback code redirectURL r
    = (set_spinner_visibility hidden (console_error message r), ReturnedOnUnknown)
    /\ doHandleURLCallback HandleURL_ERROR redirectURL r
       = (set_spinner_visibility hidden (console_error message' r), ReturnedOnError).
Proof.
  intros Hcur Hitem Hunknown.
  destruct (doHandleURLCallback_unknown code redirectURL r current target
              Hcur Hitem Hunknown) as [message Hu].
  destruct (doHandleURLCallback_error redirectURL r current target Hcur Hitem)
    as [message' He].
  exists message, message'. split; assumption.
Qed.

End Continuation.

(** ** The chain of handlers *)

Section Dispatch.

Context {imports : Imports}.

(** With distinct handler objects, the handler after the current one is the
    next of the chain. *)
Lemma next_handler_at (pre : list URLHandler) (h : URLHandler)
    (rest : list URLHandler) :
  NoDup (oid <$> pre ++ h :: rest) ->
  index (pre ++ h :: rest) (handlerIndexOf (pre ++ h :: rest) (Some h) + 1)
  = head rest.
Proof.
  intros Hnd. unfold handlerIndexOf.
  rewrite indexOf_middle.
  - replace (Z.of_nat (length pre) + 1) with (Z.of_nat (S (length pre))) by lia.
    rewrite index_of_nat, lookup_app_r by lia.
    replace (S (length pre) - length pre)%nat with 1%nat by lia.
    destruct rest; reflexivity.
  - rewrite fmap_app, NoDup_app in Hnd. destruct Hnd as (_ & Hdis & _).
    apply List.Forall_forall. intros y Hy. simpl.
    apply Nat.eqb_neq. intros Heq.
    apply (Hdis (oid y)).
    + apply list_elem_of_fmap. exists y. split; [reflexivity|].
      apply list_elem_of_In, Hy.
    + rewrite Heq. simpl. apply list_elem_of_here.
  - simpl. apply Nat.eqb_refl.
Qed.

Lemma calls_app (t t' : list Event) : calls (t ++ t') = calls t ++ calls t'.
Proof. apply List.filter_app. Qed.

(** [NONE] or [CONTINUE] with a next handler that does not throw: the next
    handler becomes the current one and is called, once, with the redirect
    target if there is a redirect and with the current target otherwise. *)
Lemma doHandleURLCallback_next code redirectURL r pre h next rest target :
  URLHandlers r = pre ++ h :: next :: rest ->
  NoDup (oid <$> URLHandlers r) ->
  currentURLHandler r = Some h ->
  currentURLItem r = Some target ->
  code = HandleURL_NONE \/ code = HandleURL_CONTINUE ->
  let target' := nextTarget redirectURL target in
  let run := handleURL next (URLItem.URL target') (Source target') in
  raises run = None ->
  exists r',
    doHandleURLCallback code redirectURL r = (r', CalledNextHandler)
    /\ URLHandlers r' = URLHandlers r
    /\ currentURLHandler r' = Some next
    /\ currentURLItem r' = Some target'
    /\ timers r' = timers r ++ callbacks run
    /\ calls (trace r')
       = calls (trace r)
         ++ [HandleURL (oid next) (URLItem.URL target') (Source target')]
    /\ history r' = history r
    /\ currentHistoryItem r' = currentHistoryItem r
    /\ dom r' = dom r.
Proof.
  intros Hchain Hnd Hcur Hitem Hcode target' run Hraises.
  pose proof codes_differ as (? & ? & ? & ? & ? & ?).
  unfold doHandleURLCallback. rewrite Hcur, Hchain.
  rewrite Hchain in Hnd. rewrite (next_handler_at pre h (next :: rest) Hnd).
  cbn [head].
  assert (Hfin : forall r0, finallyBlock code r0 = r0).
  { intros r0. rewrite finallyBlock_hides, decide_False; [reflexivity|].
    unfold terminal. tauto. }
  unfold tryBlock, switchOnResult, currentURL. rewrite Hitem.
  subst run target'. unfold nextTarget in *.
  unfold logRedirect, proceed, currentURL.
  destruct (redirectTarget redirectURL) as [to|] eqn:Hrt;
    destruct Hcode as [-> | ->]; code_tests;
    cbn [fmap option_fmap option_map];
    cbn [currentURLItem console_log emit set_trace set_currentURLItem
         set_currentURLHandler fmap option_fmap option_map];
    rewrite ?Hitem; cbn [fmap option_fmap option_map];
    rewrite callHandleURL_eq, Hraises; cbn [catchBlock]; rewrite Hfin;
    (eexists; split; [reflexivity|]);
    cbn; rewrite ?Hchain, ?Hitem, ?calls_app; cbn; rewrite ?app_nil_r;
    repeat split; reflexivity.
Qed.

(** [NONE] or [CONTINUE] at the last handler: the permission handler is
    installed and nothing else changes but the console. *)
Lemma doHandleURLCallback_last code redirectURL r pre h target :
  URLHandlers r = pre ++ [h] ->
  NoDup (oid <$> URLHandlers r) ->
  currentURLHandler r = Some h ->
  currentURLItem r = Some target ->
  code = HandleURL_NONE \/ code = HandleURL_CONTINUE ->
  exists r',
    doHandleURLCallback code redirectURL r = (r', ReachedEndOfChain)
    /\ URLHandlers r' = URLHandlers r
    /\ timers r' = timers r
    /\ calls (trace r') = calls (trace r)
    /\ In SetPermissionRequestHandler (trace r')
    /\ history r' = history r
    /\ currentHistoryItem r' = currentHistoryItem r
    /\ dom r' = dom r.
Proof.
  intros Hchain Hnd Hcur Hitem Hcode.
  pose proof codes_differ as (? & ? & ? & ? & ? & ?).
  unfold doHandleURLCallback. rewrite Hcur, Hchain.
  rewrite Hchain in Hnd. rewrite (next_handler_at pre h [] Hnd).
  cbn [head].
  assert (Hfin : forall r0, finallyBlock code r0 = r0).
  { intros r0. rewrite finallyBlock_hides, decide_False; [reflexivity|].
    unfold terminal. tauto. }
  unfold tryBlock, switchOnResult, currentURL. rewrite Hitem.
  unfold logRedirect, proceed, currentURL.
  destruct (redirectTarget redirectURL) as [to|] eqn:Hrt;
    destruct Hcode as [-> | ->]; code_tests;
    cbn [fmap option_fmap option_map];
    cbn [currentURLItem console_log emit set_trace set_currentURLItem
         set_currentURLHandler fmap option_fmap option_map];
    rewrite ?Hitem; cbn [fmap option_fmap option_map catchBlock];
    rewrite Hfin;
    (eexists; split; [reflexivity|]);
    cbn; rewrite ?Hchain, ?Hitem, ?calls_app; cbn; rewrite ?app_nil_r;
    repeat split; try reflexivity;
    apply in_or_app; right; left; reflexivity.
Qed.

(** *** The algorithm of the specification *)

Lemma answer_reply handler target code redirect :
  handleURL handler (URLItem.URL target) (Source target) = reply code redirect ->
  answer handler target = Some (code, redirect).
Proof. intros H. unfold answer. rewrite H. reflexivity. Qed.

Lemma in_chain_order_cons h rest step steps :
  step_handler step = h -> in_chain_order rest steps ->
  in_chain_order (h :: rest) (step :: steps).
Proof.
  unfold in_chain_order. intros <- H. rewrite fmap_cons, H. reflexivity.
Qed.

Lemma ends_with_single handlers step o :
  (step_code step = HandleURL_STOP /\ o = Handled)
  \/ ((step_code step = HandleURL_ERROR \/ unknown (step_code step))
      /\ o = Aborted)
  \/ (~ terminal (step_code step) /\ o = Exhausted
      /\ length [step] = length handlers) ->
  ends_with handlers [step] o.
Proof. intros H. exists [], step. repeat split; [constructor|exact H]. Qed.

Lemma ends_with_cons h rest step steps o :
  ~ terminal (step_code step) -> ends_with rest steps o ->
  ends_with (h :: rest) (step :: steps) o.
Proof.
  intros Hstep (before & last & -> & Hbefore & Hlast).
  exists (step :: before), last. repeat split.
  - constructor; assumption.
  - destruct Hlast as [H|[H|(H1 & H2 & H3)]]; [tauto|tauto|].
    right. right. repeat split; [assumption..|]. simpl. rewrite H3. reflexivity.
Qed.

Lemma dispatchFrom_shape (redirectSource : URLSource)
    (handlers : list URLHandler) (target : IURLItem) :
  Forall keepsContract handlers -> handlers <> [] ->
  in_chain_order handlers (fst (dispatchFrom redirectSource handlers target))
  /\ ends_with handlers (fst (dispatchFrom redirectSource handlers target))
                        (snd (dispatchFrom redirectSource handlers target))
  /\ Forall answered (fst (dispatchFrom redirectSource handlers target)).
Proof.
  pose proof codes_differ as (? & ? & ? & ? & ? & ?).
  intros Hcontract. revert target.
  induction Hcontract as [|h rest Hh Hrest IH]; intros target Hne;
    [contradiction|].
  destruct (Hh (URLItem.URL target) (Source target)) as (code & redirect & Hreply).
  cbn [dispatchFrom]. rewrite (answer_reply _ _ _ _ Hreply).
  set (step := {| step_handler := h; step_target := target;
                  step_code := code; step_redirect := redirect |}).
  assert (Hans : answered step) by exact Hreply.
  assert (Hone : in_chain_order (h :: rest) [step]) by reflexivity.
  destruct (Z.eqb_spec code HandleURL_ERROR) as [He|He].
  { split; [exact Hone|split; [|repeat constructor; exact Hans]].
    apply ends_with_single. right. left. split; [left; exact He|reflexivity]. }
  destruct (Z.eqb_spec code HandleURL_STOP) as [Hs|Hs].
  { split; [exact Hone|split; [|repeat constructor; exact Hans]].
    apply ends_with_single. left. split; [exact Hs|reflexivity]. }
  destruct (Z.eqb_spec code HandleURL_NONE) as [Hn|Hn];
    destruct (Z.eqb_spec code HandleURL_CONTINUE) as [Hc|Hc]; cbn [orb].
  4: { split; [exact Hone|split; [|repeat constructor; exact Hans]].
       apply ends_with_single. right. left.
       split; [right; repeat split; assumption|reflexivity]. }
  all: assert (Hadv : ~ terminal (step_code step))
         by (unfold terminal; simpl; tauto).
  all: destruct rest as [|next rest'];
    [ split; [exact Hone|split; [|repeat constructor; exact Hans]];
      apply ends_with_single; right; right; repeat split; assumption |].
  all: match goal with
       | |- context [dispatchFrom ?src (?n :: ?l) ?t] =>
           destruct (IH t) as (Ho & He' & Ha); [discriminate|];
           destruct (dispatchFrom src (n :: l) t) as [steps o] eqn:Hd
       end.
  all: simpl in Ho, He', Ha |- *.
  all: split; [|split];
    [ apply in_chain_order_cons; [reflexivity|exact Ho]
    | apply ends_with_cons; assumption
    | constructor; assumption ].
Qed.

(** *** The event loop against the algorithm *)

Lemma runTimers_idle (fuel : nat) (r : Renderer) :
  timers r = [] -> runTimers fuel r = (r, []).
Proof. intros H. destruct fuel; simpl; [|rewrite H]; reflexivity. Qed.

Lemma runTimers_step fuel r code redirect rest :
  timers r = (code, redirect) :: rest ->
  runTimers (S fuel) r
  = let (r1, exit) := doHandleURLCallback code redirect (set_timers rest r) in
    let (r2, exits) := runTimers fuel r1 in (r2, exit :: exits).
Proof. intros H. simpl. rewrite H. reflexivity. Qed.

Lemma dispatchFrom_last redirectSource h target code redirect :
  handleURL h (URLItem.URL target) (Source target) = reply code redirect ->
  dispatchFrom redirectSource [h] target
  = let step := {| step_handler := h; step_target := target;
                   step_code := code; step_redirect := redirect |} in
    if code =? HandleURL_ERROR then ([step], Aborted)
    else if code =? HandleURL_STOP then ([step], Handled)
    else if (code =? HandleURL_NONE) || (code =? HandleURL_CONTINUE)
    then ([step], Exhausted)
    else ([step], Aborted).
Proof.
  intros Hreply. cbn [dispatchFrom]. rewrite (answer_reply _ _ _ _ Hreply).
  reflexivity.
Qed.

Lemma dispatchFrom_more redirectSource h next rest target code redirect :
  handleURL h (URLItem.URL target) (Source target) = reply code redirect ->
  dispatchFrom redirectSource (h :: next :: rest) target
  = let step := {| step_handler := h; step_target := target;
                   step_code := code; step_redirect := redirect |} in
    if code =? HandleURL_ERROR then ([step], Aborted)
    else if code =? HandleURL_STOP then ([step], Handled)
    else if (code =? HandleURL_NONE) || (code =? HandleURL_CONTINUE)
    then
      let target' :=
        match redirectTarget redirect with
        | Some to => getURLItem to redirectSource
        | None => target
        end in
      (step :: fst (dispatchFrom redirectSource (next :: rest) target'),
       snd (dispatchFrom redirectSource (next :: rest) target'))
    else ([step], Aborted).
Proof.
  intros Hreply.
  change (dispatchFrom redirectSource (h :: next :: rest) target)
    with (match answer h target with
          | None => ([], Aborted)
          | Some (code, redirect) =>
              let step := {| step_handler := h; step_target := target;
                             step_code := code; step_redirect := redirect |} in
              if code =? HandleURL_ERROR then ([step], Aborted)
              else if code =? HandleURL_STOP then ([step], Handled)
              else if (code =? HandleURL_NONE) || (code =? HandleURL_CONTINUE)
              then
                let target' :=
                  match redirectTarget redirect with
                  | Some to => getURLItem to redirectSource
                  | None => target
                  end in
                let (steps, o) :=
                  dispatchFrom redirectSource (next :: rest) target' in
                (step :: steps, o)
              else ([step], Aborted)
          end).
  rewrite (answer_reply _ _ _ _ Hreply). cbv zeta.
  destruct (dispatchFrom redirectSource (next :: rest) _); reflexivity.
Qed.

Lemma dispatchFrom_first redirectSource h rest target :
  keepsContract h ->
  exists step steps,
    fst (dispatchFrom redirectSource (h :: rest) target) = step :: steps
    /\ call step = HandleURL (oid h) (URLItem.URL target) (Source target).
Proof.
  intros Hh.
  destruct (Hh (URLItem.URL target) (Source target)) as (code & redirect & Hreply).
  cbn [dispatchFrom]. rewrite (answer_reply _ _ _ _ Hreply).
  destruct (_ =? _); [eexists _, _; split; reflexivity|].
  destruct (_ =? _); [eexists _, _; split; reflexivity|].
  destruct (_ || _); [|eexists _, _; split; reflexivity].
  destruct rest; [eexists _, _; split; reflexivity|].
  destruct (dispatchFrom _ _ _). eexists _, _; split; reflexivity.
Qed.

(** From a state in which handler [h] of the chain has just been called with
    [target] and its callback is the only pending timer, the event loop calls
    the handlers that the algorithm of the specification calls after [h]
    (with [PAGE] as the provenance of a redirect), ends with its outcome
    and leaves no timer, provided it may run once per remaining handler. *)
Lemma run_chain (rest : list URLHandler) :
  forall pre h target code redirect r fuel,
    URLHandlers r = pre ++ h :: rest ->
    NoDup (oid <$> URLHandlers r) ->
    Forall keepsContract rest ->
    currentURLHandler r = Some h ->
    currentURLItem r = Some target ->
    handleURL h (URLItem.URL target) (Source target) = reply code redirect ->
    timers r = [(code, redirect)] ->
    (length rest < fuel)%nat ->
    exists r' exits exit,
      runTimers fuel r = (r', exits)
      /\ last exits = Some exit
      /\ timers r' = []
      /\ URLHandlers r' = URLHandlers r
      /\ history r' = history r
      /\ currentHistoryItem r' = currentHistoryItem r
      /\ calls (trace r')
         = calls (trace r)
           ++ (call <$> tail (fst (dispatchFrom PAGE (h :: rest) target)))
      /\ outcome exit = Some (snd (dispatchFrom PAGE (h :: rest) target)).
Proof.
  pose proof codes_differ as (? & ? & ? & ? & ? & ?).
  induction rest as [|next rest IH];
    intros pre h target code redirect r fuel
           Hchain Hnd Hcontract Hcur Hitem Hreply Htimers Hfuel;
    (destruct fuel as [|fuel]; [simpl in Hfuel; lia|]);
    rewrite (runTimers_step _ _ _ _ _ Htimers);
    [rewrite (dispatchFrom_last _ _ _ _ _ Hreply)
    |rewrite (dispatchFrom_more _ _ _ _ _ _ _ Hreply)]; cbv zeta;
    set (r0 := set_timers [] r);
    assert (Hchain0 : URLHandlers r0 = URLHandlers r) by reflexivity;
    assert (Hcur0 : currentURLHandler r0 = Some h) by exact Hcur;
    assert (Hitem0 : currentURLItem r0 = Some target) by exact Hitem;
    assert (Hcalls0 : calls (trace r0) = calls (trace r)) by reflexivity.
  (* the last handler of the chain *)
  - destruct (Z.eqb_spec code HandleURL_ERROR) as [->|He].
    { destruct (doHandleURLCallback_error redirect r0 h target Hcur0 Hitem0)
        as [message ->].
      rewrite runTimers_idle by reflexivity.
      eexists _, _, _. split; [reflexivity|]. cbn.
      rewrite calls_app; cbn; rewrite !app_nil_r. repeat split. }
    destruct (Z.eqb_spec code HandleURL_STOP) as [->|Hs].
    { destruct (doHandleURLCallback_stop redirect r0 h target Hcur0 Hitem0)
        as [message ->].
      rewrite runTimers_idle by reflexivity.
      eexists _, _, _. split; [reflexivity|]. cbn.
      rewrite calls_app; cbn; rewrite !app_nil_r. repeat split. }
    destruct (Z.eqb_spec code HandleURL_NONE) as [Hn|Hn];
      destruct (Z.eqb_spec code HandleURL_CONTINUE) as [Hc|Hc]; cbn [orb].
    4: { destruct (doHandleURLCallback_unknown code redirect r0 h target
                     Hcur0 Hitem0) as [message ->]; [repeat split; assumption|].
         rewrite runTimers_idle by reflexivity.
         eexists _, _, _. split; [reflexivity|]. cbn.
         rewrite calls_app; cbn; rewrite !app_nil_r. repeat split. }
    all: destruct (doHandleURLCallback_last code redirect r0 pre h target)
           as (r1 & -> & Hh1 & Ht1 & Hc1 & _ & Hhist1 & Hcursor1 & _);
      [exact Hchain|rewrite Hchain0; exact Hnd|exact Hcur0|exact Hitem0|tauto|].
    all: rewrite runTimers_idle by exact Ht1.
    all: eexists _, _, _; split; [reflexivity|]; cbn.
    all: rewrite Hc1, Hcalls0, !app_nil_r; repeat split; assumption.
  (* a handler with a next one *)
  - destruct (Z.eqb_spec code HandleURL_ERROR) as [->|He].
    { destruct (doHandleURLCallback_error redirect r0 h target Hcur0 Hitem0)
        as [message ->].
      rewrite runTimers_idle by reflexivity.
      eexists _, _, _. split; [reflexivity|]. cbn.
      rewrite calls_app; cbn; rewrite !app_nil_r. repeat split. }
    destruct (Z.eqb_spec code HandleURL_STOP) as [->|Hs].
    { destruct (doHandleURLCallback_stop redirect r0 h target Hcur0 Hitem0)
        as [message ->].
      rewrite runTimers_idle by reflexivity.
      eexists _, _, _. split; [reflexivity|]. cbn.
      rewrite calls_app; cbn; rewrite !app_nil_r. repeat split. }
    destruct (Z.eqb_spec code HandleURL_NONE) as [Hn|Hn];
      destruct (Z.eqb_spec code HandleURL_CONTINUE) as [Hc|Hc]; cbn [orb].
    4: { destruct (doHandleURLCallback_unknown code redirect r0 h target
                     Hcur0 Hitem0) as [message ->]; [repeat split; assumption|].
         rewrite runTimers_idle by reflexivity.
         eexists _, _, _. split; [reflexivity|]. cbn.
         rewrite calls_app; cbn; rewrite !app_nil_r. repeat split. }
    all: fold (nextTarget redirect target).
    all: set (target' := nextTarget redirect target).
    all: pose proof (List.Forall_inv Hcontract) as Hnext.
    all: pose proof (List.Forall_inv_tail Hcontract) as Hrest.
    all: destruct (Hnext (URLItem.URL target') (Source target'))
           as (code' & redirect' & Hreply').
    all: destruct (doHandleURLCallback_next code redirect r0 pre h next rest
                     target)
           as (r1 & -> & Hh1 & Hcur1 & Hitem1 & Ht1 & Hc1 & Hhist1 & Hcursor1 & _);
      [exact Hchain|rewrite Hchain0; exact Hnd|exact Hcur0|exact Hitem0|tauto
      |fold target'; rewrite Hreply'; reflexivity|].
    all: fold target' in Hitem1, Ht1, Hc1; rewrite Hreply' in Ht1;
      simpl in Ht1.
    all: destruct (IH (pre ++ [h]) next target' code' redirect' r1 fuel)
           as (r' & exits & exit & Hrun & Hlast & Htimers' & Hh' & Hhist'
               & Hcursor' & Hcalls' & Hout);
      [rewrite Hh1, Hchain0, Hchain, <- app_assoc; reflexivity
      |rewrite Hh1, Hchain0; exact Hnd|exact Hrest|exact Hcur1|exact Hitem1
      |exact Hreply'|exact Ht1|simpl in Hfuel; lia|].
    all: rewrite Hrun.
    all: exists r', (CalledNextHandler :: exits), exit.
    all: split; [reflexivity|].
    all: split; [rewrite last_cons, Hlast; reflexivity|].
    all: split; [exact Htimers'|].
    all: split; [rewrite Hh', Hh1; reflexivity|].
    all: split; [rewrite Hhist', Hhist1; reflexivity|].
    all: split; [rewrite Hcursor', Hcursor1; reflexivity|].
    all: split; [|exact Hout].
    all: rewrite Hcalls', Hc1, Hcalls0, <- app_assoc; f_equal.
    all: destruct (dispatchFrom_first PAGE next rest target' Hnext)
           as (step & steps' & Hsteps & Hcall).
    all: cbn [fst tail]; rewrite Hsteps, fmap_cons, Hcall; reflexivity.
Qed.

(** *** A whole dispatch *)

(** [loadURL] for a target that is not the blank page, with a chain that is
    not empty: the first handler becomes current and is called with the
    target. *)
Lemma loadURL_starts urlItem updateHistory r first rest :
  URLHandlers r = first :: rest ->
  OriginalURL urlItem <> blankPage ->
  let run := handleURL first (URLItem.URL urlItem) (Source urlItem) in
  let r1 := fst (loadURL urlItem updateHistory r) in
  URLHandlers r1 = URLHandlers r
  /\ currentURLHandler r1 = Some first
  /\ currentURLItem r1 = Some urlItem
  /\ timers r1 = timers r ++ callbacks run
  /\ trace r1
     = trace r ++ [HandleURL (oid first) (URLItem.URL urlItem) (Source urlItem)]
  /\ spinner_visibility (dom r1) = visible.
Proof.
  intros Hchain Hblank. unfold loadURL. rewrite Hchain.
  rewrite (proj2 (String.eqb_neq _ _) Hblank).
  rewrite callHandleURL_eq. cbn [fst].
  destruct updateHistory; [destruct (addOrUpdateItem _ _)|];
    cbn; rewrite ?Hchain; repeat split; reflexivity.
Qed.

Lemma steps_distinct handlers steps :
  NoDup (oid <$> handlers) -> in_chain_order handlers steps ->
  NoDup (oid <$> (step_handler <$> steps)).
Proof.
  unfold in_chain_order. intros Hnd ->. rewrite fmap_take.
  eapply sublist_NoDup; [exact Hnd|apply sublist_take].
Qed.

(** The dispatch that [loadURL] starts, run to its end by the event loop. *)
Lemma dispatch_refines urlItem updateHistory r fuel :
  URLHandlers r <> [] ->
  NoDup (oid <$> URLHandlers r) ->
  Forall keepsContract (URLHandlers r) ->
  OriginalURL urlItem <> blankPage ->
  timers r = [] ->
  (length (URLHandlers r) <= fuel)%nat ->
  let r1 := fst (loadURL urlItem updateHistory r) in
  let steps := fst (dispatchFrom PAGE (URLHandlers r) urlItem) in
  let o := snd (dispatchFrom PAGE (URLHandlers r) urlItem) in
  exists exit,
    calls (trace (fst (runTimers fuel r1))) = calls (trace r) ++ (call <$> steps)
    /\ last (snd (runTimers fuel r1)) = Some exit
    /\ outcome exit = Some o
    /\ timers (fst (runTimers fuel r1)) = [].
Proof.
  intros Hne Hnd Hcontract Hblank Htimers Hfuel.
  destruct (URLHandlers r) as [|first rest] eqn:Hchain; [contradiction|].
  destruct (loadURL_starts urlItem updateHistory r first rest Hchain Hblank)
    as (Hh1 & Hcur1 & Hitem1 & Ht1 & Htr1 & _).
  pose proof (List.Forall_inv Hcontract) as Hfirst.
  pose proof (List.Forall_inv_tail Hcontract) as Hrest.
  destruct (Hfirst (URLItem.URL urlItem) (Source urlItem))
    as (code & redirect & Hreply).
  rewrite Hreply, Htimers in Ht1. simpl in Ht1.
  destruct (run_chain rest [] first urlItem code redirect
              (fst (loadURL urlItem updateHistory r)) fuel)
    as (r' & exits & exit & Hrun & Hlast & Htimers' & _ & _ & _ & Hcalls & Hout);
    [rewrite Hh1; exact Hchain|rewrite Hh1, Hchain; exact Hnd|exact Hrest
    |exact Hcur1|exact Hitem1|exact Hreply|exact Ht1|simpl in Hfuel; lia|].
  cbv zeta. rewrite Hrun. cbn [fst snd].
  exists exit. split; [|repeat split; assumption].
  rewrite Hcalls, Htr1, calls_app, <- app_assoc. f_equal.
  destruct (dispatchFrom_first PAGE first rest urlItem Hfirst)
    as (step & steps' & Hsteps & Hcall).
  rewrite Hsteps. cbn [tail]. rewrite fmap_cons, Hcall. reflexivity.
Qed.

(** C3.  A dispatch over a chain that is not empty, of distinct handler
    objects that each call back exactly once: [loadURL] and the runs of
    [doHandleURLCallback] that follow call the handlers in the order of the
    chain, each at most once.  Every called handler but the last answered
    [NONE] or [CONTINUE]; the last one ends the dispatch: [STOP] as
    [Handled], [ERROR] (or an unknown code) as [Aborted], so that no handler
    after it is called, and [NONE] or [CONTINUE] only at the end of the chain,
    as [Exhausted].  No callback is left pending. *)
Theorem dispatch_follows_chain (urlItem : IURLItem) (updateHistory : bool)
    (r : Renderer) (fuel : nat) :
  URLHandlers r <> [] ->
  NoDup (oid <$> URLHandlers r) ->
  Forall keepsContract (URLHandlers r) ->
  OriginalURL urlItem <> blankPage ->
  timers r = [] ->
  (length (URLHandlers r) <= fuel)%nat ->
  let r1 := fst (loadURL urlItem updateHistory r) in
  let r' := fst (runTimers fuel r1) in
  let exits := snd (runTimers fuel r1) in
  exists steps exit o,
    calls (trace r') = calls (trace r) ++ (call <$> steps)
    /\ in_chain_order (URLHandlers r) steps
    /\ NoDup (oid <$> (step_handler <$> steps))
    /\ Forall answered steps
    /\ ends_with (URLHandlers r) steps o
    /\ last exits = Some exit
    /\ outcome exit = Some o
    /\ timers r' = [].
Proof.
  intros Hne Hnd Hcontract Hblank Htimers Hfuel.
  destruct (dispatch_refines urlItem updateHistory r fuel
              Hne Hnd Hcontract Hblank Htimers Hfuel)
    as (exit & Hcalls & Hlast & Hout & Hempty).
  destruct (dispatchFrom_shape PAGE (URLHandlers r) urlItem Hcontract Hne)
    as (Horder & Hends & Hanswered).
  exists (fst (dispatchFrom PAGE (URLHandlers r) urlItem)), exit,
         (snd (dispatchFrom PAGE (URLHandlers r) urlItem)).
  repeat split; try assumption.
  apply (steps_distinct (URLHandlers r)); assumption.
Qed.

(** The chain of the specification's example: the first handler answers
    [CONTINUE], the second [STOP].  Each is called exactly once, in this
    order and with the dispatched target, and the dispatch ends [Handled]. *)
Lemma continue_then_stop urlItem updateHistory r H1 H2 fuel :
  URLHandlers r = [H1; H2] ->
  oid H1 <> oid H2 ->
  (forall url source, handleURL H1 url source = reply HandleURL_CONTINUE None) ->
  (forall url source, handleURL H2 url source = reply HandleURL_STOP None) ->
  OriginalURL urlItem <> blankPage ->
  timers r = [] ->
  (2 <= fuel)%nat ->
  let r1 := fst (loadURL urlItem updateHistory r) in
  exists exit,
    calls (trace (fst (runTimers fuel r1)))
    = calls (trace r)
      ++ [HandleURL (oid H1) (URLItem.URL urlItem) (Source urlItem);
          HandleURL (oid H2) (URLItem.URL urlItem) (Source urlItem)]
    /\ last (snd (runTimers fuel r1)) = Some exit
    /\ outcome exit = Some Handled.
Proof.
  intros Hchain Hoid Hc Hs Hblank Htimers Hfuel.
  pose proof codes_differ as (? & ? & ? & ? & ? & ?).
  destruct (dispatch_refines urlItem updateHistory r fuel)
    as (exit & Hcalls & Hlast & Hout & _); try assumption.
  - rewrite Hchain. discriminate.
  - rewrite Hchain. cbn. rewrite !NoDup_cons, !not_elem_of_cons.
    repeat split; try assumption; try apply not_elem_of_nil. apply NoDup_nil_2.
  - rewrite Hchain. repeat constructor; intros url source; eexists _, _; eauto.
  - rewrite Hchain. simpl. exact Hfuel.
  - rewrite Hchain in Hcalls, Hout.
    rewrite (dispatchFrom_more _ _ _ _ _ _ _ (Hc _ _)) in Hcalls, Hout.
    cbv zeta in Hcalls, Hout. cbn [redirectTarget] in Hcalls, Hout.
    rewrite (dispatchFrom_last _ _ _ _ _ (Hs _ _)) in Hcalls, Hout.
    cbv zeta in Hcalls, Hout.
    revert Hcalls Hout. code_tests. cbn. intros Hcalls Hout.
    exists exit. repeat split; assumption.
Qed.

(** C1, as the code has it.  In a dispatch over the chain [[H1; H2]], when
    [H1] answers [NONE] with a redirect URL that is not empty, [H2] is called
    with the URL and the source of [getURLItem(redirect, URLSource.PAGE)]:
    the source of the target is [PAGE], and the URL is the one that
    [getURLItem] derives from the redirect URL.  That target also becomes the
    current one. *)
Theorem redirect_reaches_next_handler (redirect : string) (r : Renderer)
    (H1 H2 : URLHandler) (target : IURLItem) :
  URLHandlers r = [H1; H2] ->
  oid H1 <> oid H2 ->
  keepsContract H2 ->
  currentURLHandler r = Some H1 ->
  currentURLItem r = Some target ->
  redirect <> "" ->
  let r' := fst (doHandleURLCallback HandleURL_NONE (Some redirect) r) in
  let target' := getURLItem redirect PAGE in
  calls (trace r')
  = calls (trace r) ++ [HandleURL (oid H2) (URLItem.URL target') PAGE]
  /\ currentURLHandler r' = Some H2
  /\ currentURLItem r' = Some target'
  /\ Source target' = PAGE.
Proof.
  intros Hchain Hoid Hcontract Hcur Hitem Hredirect.
  assert (Htarget : nextTarget (Some redirect) target = getURLItem redirect PAGE).
  { unfold nextTarget, redirectTarget, truthy.
    rewrite (proj2 (String.eqb_neq _ _) Hredirect). reflexivity. }
  destruct (Hcontract (URLItem.URL (getURLItem redirect PAGE))
                      (Source (getURLItem redirect PAGE)))
    as (code' & redirect' & Hreply).
  destruct (doHandleURLCallback_next HandleURL_NONE (Some redirect) r
              [] H1 H2 [] target)
    as (r' & Hrun & _ & Hcur' & Hitem' & _ & Hcalls & _);
    [exact Hchain| |exact Hcur|exact Hitem|left; reflexivity| |].
  - rewrite Hchain. cbn. rewrite !NoDup_cons, !not_elem_of_cons.
    repeat split; try assumption; try apply not_elem_of_nil. apply NoDup_nil_2.
  - rewrite Htarget, Hreply. reflexivity.
  - cbv zeta. rewrite Hrun. cbn [fst].
    rewrite Htarget in Hitem', Hcalls.
    rewrite getURLItem_Source in Hcalls.
    repeat split; try assumption. apply getURLItem_Source.
Qed.

End Dispatch.

(** ** Closed examples for the renderer *)

(** C1: the chain [[H1; H2]] with [H1] answering [NONE] and the redirect
    ["http://redirected.example/"].  [H2] is called once, and the source it
    is called with is [PAGE]; no call carries [HANDLER_REDIRECT]. *)
Lemma redirect_source_is_page :
  let r := Sample.dispatching [Sample.redirects; Sample.stops] in
  let r' := fst (runTimers (imports := Sample.imports) 2 r) in
  calls (trace r')
  = [HandleURL 1 "http://start.example/" USER;
     HandleURL 2 "http://redirected.example/" PAGE]
  /\ ~ In (HandleURL 2 "http://redirected.example/" HANDLER_REDIRECT) (trace r').
Proof.
  split; [reflexivity|]. vm_compute.
  intros [H|[H|[H|[H|[H|[]]]]]]; discriminate H.
Qed.

Lemma redirect_reaches_next_handler_witness :
  let r := Sample.dispatching [Sample.redirects; Sample.stops] in
  let redirect := "http://redirected.example/" in
  let r' := fst (doHandleURLCallback (imports := Sample.imports)
                   Sample.NONE (Some redirect) r) in
  calls (trace r')
  = calls (trace r) ++ [HandleURL 2 redirect PAGE]
  /\ currentURLHandler r' = Some Sample.stops
  /\ currentURLItem r' = Some (Sample.getURLItem redirect PAGE)
  /\ Source (Sample.getURLItem redirect PAGE) = PAGE.
Proof.
  intros r redirect.
  apply (redirect_reaches_next_handler (imports := Sample.imports)
           redirect r Sample.redirects Sample.stops Sample.target).
  - reflexivity.
  - discriminate.
  - intros url source. eexists _, _. reflexivity.
  - reflexivity.
  - reflexivity.
  - discriminate.
Defined.

(** C2: one configuration entry with [Load] true and [Active] false, whose
    module loads.  Its handler is in the chain, although no entry has both
    flags set. *)
Lemma inactive_handler_loaded :
  let r := Sample.renderer [Sample.inactiveEntry] [] in
  constructor_name <$> URLHandlers (loadURLHandlers (imports := Sample.imports) r)
  = ["LoggerURLHandler"]
  /\ List.filter (fun entry => Config.Load entry && Config.Active entry)
                 (Config.URLHandlers (settings r)) = [].
Proof. split; reflexivity. Qed.

(** C3: the chain of the specification's example. *)
Lemma dispatch_follows_chain_witness :
  let r := Sample.renderer [] [Sample.continues; Sample.stops] in
  let r' := fst (runTimers (imports := Sample.imports) 2
                   (fst (loadURL Sample.target true r))) in
  let exits := snd (runTimers (imports := Sample.imports) 2
                      (fst (loadURL Sample.target true r))) in
  exists steps exit o,
    calls (trace r') = calls (trace r) ++ (call <$> steps)
    /\ in_chain_order (URLHandlers r) steps
    /\ NoDup (oid <$> (step_handler <$> steps))
    /\ Forall answered steps
    /\ ends_with (imports := Sample.imports) (URLHandlers r) steps o
    /\ last exits = Some exit
    /\ outcome exit = Some o
    /\ timers r' = [].
Proof.
  intros r.
  apply (dispatch_follows_chain (imports := Sample.imports)
           Sample.target true r 2).
  - discriminate.
  - compute_done.
  - repeat constructor; intros url source; eexists _, _; reflexivity.
  - discriminate.
  - reflexivity.
  - simpl. lia.
Defined.

Lemma continue_then_stop_example :
  let r := Sample.renderer [] [Sample.continues; Sample.stops] in
  let run := runTimers (imports := Sample.imports) 2
               (fst (loadURL Sample.target true r)) in
  calls (trace (fst run))
  = [HandleURL 1 "http://start.example/" USER;
     HandleURL 2 "http://start.example/" USER]
  /\ snd run = [CalledNextHandler; ReturnedOnStop]
  /\ outcome ReturnedOnStop = Some Handled.
Proof. repeat split. Qed.



(** C6: with no handler configured, [loadURL] of the blank page renders
    nothing and leaves the title alone. *)
Lemma blank_page_not_rendered_without_handlers :
  let r := Sample.renderer [] [] in
  let r' := fst (loadURL (Sample.getURLItem blankPage USER) true r) in
  OriginalURL (Sample.getURLItem blankPage USER) = blankPage
  /\ webView_src (dom r') <> blankPageContent
  /\ window_title (dom r') <> appInfo_Name r.
Proof. repeat split; discriminate. Qed.

Lemma loadURL_blank_page_witness :
  let r := Sample.renderer [] [Sample.stops] in
  let urlItem := Sample.getURLItem blankPage USER in
  let r' := fst (loadURL urlItem true r) in
  OriginalURL urlItem = blankPage
  /\ webView_src (dom r') = blankPageContent
  /\ window_title (dom r') = appInfo_Name r
  /\ history r' = history r
  /\ trace r' = trace r.
Proof.
  intros r urlItem.
  pose proof (loadURL_blank_page urlItem true r eq_refl)
    as (_ & Hhistory & _ & _ & _ & _ & Hsome & _).
  destruct Hsome as (Hsrc & Htitle & Htrace); [discriminate|].
  repeat split; assumption.
Defined.

(** C7: the code 7 is none of the four. *)
Lemma unknown_result_like_error_witness :
  let r := Sample.dispatching [Sample.continues; Sample.stops] in
  unknown (imports := Sample.imports) 7
  /\ exists message message',
      doHandleURLCallback (imports := Sample.imports) 7 None r
      = (set_spinner_visibility hidden (console_error message r),
         ReturnedOnUnknown)
      /\ doHandleURLCallback (imports := Sample.imports) Sample.ERROR None r
         = (set_spinner_visibility hidden (console_error message' r),
            ReturnedOnError).
Proof.
  intros r.
  assert (Hunknown : unknown (imports := Sample.imports) 7)
    by (repeat split; discriminate).
  split; [exact Hunknown|].
  exact (unknown_result_like_error (imports := Sample.imports) 7 None r
           Sample.continues Sample.target eq_refl eq_refl Hunknown).
Defined.

(** C8: a [STOP] in the middle of a dispatch. *)
Lemma spinner_hidden_iff_terminal_witness :
  let r := Sample.dispatching [Sample.continues; Sample.stops] in
  let r' := fst (doHandleURLCallback (imports := Sample.imports)
                   Sample.STOP None r) in
  spinner_visibility (dom r) = visible
  /\ (spinner_visibility (dom r') = hidden
      <-> Sample.STOP = Sample.STOP \/ Sample.STOP = Sample.ERROR
          \/ unknown (imports := Sample.imports) Sample.STOP).
Proof.
  intros r. split; [reflexivity|].
  exact (proj1 (spinner_hidden_iff_terminal (imports := Sample.imports)
                  Sample.STOP None r Sample.continues eq_refl eq_refl)).
Defined.

(** ** The settings *)

Import Settings.

Lemma normalize_kind (value defaultValue : JSValue) :
  kind (normalize value defaultValue) = kind defaultValue.
Proof.
  unfold normalize.
  destruct (Kind_eqb (kind value) (kind defaultValue)) eqn:E; [|reflexivity].
  destruct (kind value), (kind defaultValue); try discriminate; reflexivity.
Qed.

Lemma Kind_eqb_eq (a b : Kind) : Kind_eqb a b = true <-> a = b.
Proof. destruct a, b; simpl; split; congruence. Qed.

(** A value of the default's kind is kept; any other value, also
    [undefined] for an absent field, is replaced by the default. *)
Lemma normalize_cases (value defaultValue : JSValue) :
  (kind value = kind defaultValue -> normalize value defaultValue = value)
  /\ (kind value <> kind defaultValue
      -> normalize value defaultValue = defaultValue).
Proof.
  unfold normalize. split; intros H.
  - rewrite (proj2 (Kind_eqb_eq _ _) H). reflexivity.
  - destruct (Kind_eqb _ _) eqn:E; [|reflexivity].
    apply Kind_eqb_eq in E. contradiction.
Qed.

Lemma member_present (o : JSValue) (name : string) :
  present o -> member o name = Some (read o name).
Proof.
  intros [Hu Hn]. unfold read. destruct o; try reflexivity; contradiction.
Qed.

Lemma present_read (o : JSValue) (name : string) :
  present (read o name) -> exists properties, o = JSObject properties.
Proof.
  intros [Hu _]. unfold read, member in Hu.
  destruct o; try (exfalso; apply Hu; reflexivity). eauto.
Qed.

Lemma normalizeMembers_present (o : JSValue) (defaults : list (string * JSValue)) :
  present o ->
  normalizeMembers o defaults
  = Some ((fun nd => (fst nd, normalize (read o (fst nd)) (snd nd))) <$> defaults).
Proof.
  intros Ho. induction defaults as [|[name d] defaults IH]; [reflexivity|].
  cbn [normalizeMembers]. rewrite (member_present o name Ho), IH. reflexivity.
Qed.

Lemma normalize_string (value : JSValue) (s : string) :
  exists s', normalize value (JSString s) = JSString s'.
Proof.
  pose proof (normalize_kind value (JSString s)) as H.
  destruct (normalize value (JSString s)); try discriminate. eauto.
Qed.

Section CurrentSettings.

Variable requireJSONFile : string -> string + JSValue.
Variable userAgentFallback : string.
Variable APP_PATH_PKG : string.
Variable trim : string -> string.
Variable replace_APP_PATH : string -> string -> string.

Local Abbreviation getSettings :=
  (Settings.getSettings requireJSONFile userAgentFallback APP_PATH_PKG trim
                        replace_APP_PATH).
Local Abbreviation getDefaultSettings :=
  (Settings.getDefaultSettings userAgentFallback).
Local Abbreviation normalizeSettings :=
  (Settings.normalizeSettings userAgentFallback APP_PATH_PKG trim
                              replace_APP_PATH).

(** Without a [Window] or a [ShortCuts] member the reads
    [settings.Window.Left] and [settings.ShortCuts.Global] throw. *)
Lemma normalizeSettings_throws (settings : JSValue) :
  ~ present (read settings "Window") \/ ~ present (read settings "ShortCuts") ->
  normalizeSettings settings = None.
Proof.
  intros H. unfold Settings.normalizeSettings.
  destruct (member settings "UserAgent") as [ua|] eqn:Hua; [|reflexivity].
  assert (Hs : present settings)
    by (destruct settings; try discriminate; split; discriminate).
  cbn [mbind option_bind].
  rewrite (member_present settings "Window" Hs). cbn [mbind option_bind].
  destruct (read settings "Window") as [| | | | | |windowFields] eqn:Hw;
    try reflexivity;
    try (destruct H as [H|H]; [exfalso; apply H; split; discriminate|]).
  all: rewrite (normalizeMembers_present _ Window_defaults)
         by (split; discriminate).
  all: cbn [mbind option_bind].
  all: rewrite (member_present settings "ShortCuts" Hs); cbn [mbind option_bind].
  all: destruct (read settings "ShortCuts") eqn:Hsc; try reflexivity;
    exfalso; apply H; split; discriminate.
Qed.

(** The fields of the result when no read throws. *)
Definition normalizedFields (settings : JSValue) (homepage : string)
  : list (string * JSValue) :=
  let norm (o : JSValue) :=
    fmap (fun nd : string * JSValue =>
            (fst nd, normalize (read o (fst nd)) (snd nd))) in
  [ ("Window", JSObject (norm (read settings "Window") Window_defaults));
    ("ShortCuts", JSObject (norm (read settings "ShortCuts") ShortCuts_defaults));
    ("RequestHandlers", read settings "RequestHandlers") ]
  ++ norm settings logging_defaults
  ++ [ ("UserAgent",
        if is_empty_string (read settings "UserAgent")
        then JSString userAgentFallback else read settings "UserAgent") ]
  ++ norm settings flags_defaults
  ++ norm settings Win32MenuState_defaults
  ++ [ ("Homepage", JSString (replace_APP_PATH (trim homepage) APP_PATH_PKG)) ]
  ++ norm settings Scheme_defaults.

Lemma normalizeSettings_present (settings : JSValue) :
  present (read settings "Window") ->
  present (read settings "ShortCuts") ->
  exists homepage,
    normalize (read settings "Homepage") Homepage_default = JSString homepage
    /\ normalizeSettings settings
       = Some (JSObject
                 (if not_a_menu_state
                       (normalize (read settings "Win32MenuState") (JSNumber 1))
                  then assign "Win32MenuState" (JSNumber 1)
                              (normalizedFields settings homepage)
                  else normalizedFields settings homepage)).
Proof.
  intros Hw Hsc.
  destruct (present_read _ _ Hw) as [properties ->].
  assert (Hs : present (JSObject properties)) by (split; discriminate).
  destruct (normalize_string (read (JSObject properties) "Homepage") "bb://home")
    as [homepage Hhome].
  exists homepage. split; [exact Hhome|].
  unfold Settings.normalizeSettings.
  unfold Homepage_default.
  repeat (first [ rewrite (member_present (JSObject properties) _ Hs)
                | rewrite (normalizeMembers_present _ Window_defaults Hw)
                | rewrite (normalizeMembers_present _ ShortCuts_defaults Hsc)
                | rewrite (normalizeMembers_present (JSObject properties) _ Hs)
                | rewrite Hhome ];
          cbn [mbind option_bind expandHomepage]).
  reflexivity.
Qed.


(** Setting [Win32MenuState] leaves the other fields as they are. *)
Lemma read_other_field (settings : JSValue) (homepage : string) (b : bool)
    (name : string) :
  name <> "Win32MenuState" ->
  read (JSObject (if b
                  then assign "Win32MenuState" (JSNumber 1)
                              (normalizedFields settings homepage)
                  else normalizedFields settings homepage)) name
  = read (JSObject (normalizedFields settings homepage)) name.
Proof.
  intros Hname. destruct b; [|reflexivity].
  unfold read, member, normalizedFields.
  cbn -[normalize read String.eqb].
  repeat match goal with
         | |- context [String.eqb "Win32MenuState" ?k] =>
             change (String.eqb "Win32MenuState" k) with false
         end.
  cbn -[normalize read String.eqb].
  repeat (destruct (String.eqb name _); [reflexivity|]).
  change (String.eqb "Win32MenuState" "Win32MenuState") with true.
  cbn -[normalize read String.eqb].
  rewrite (proj2 (String.eqb_neq _ _) Hname).
  repeat (destruct (String.eqb name _); [reflexivity|]). reflexivity.
Qed.


End CurrentSettings.

(** *** The first version *)

Lemma First_getSettings_unreadable readJsonSync navigator_userAgent
    (configFile error : string) :
  readJsonSync configFile = inl error ->
  fst (First.getSettings readJsonSync navigator_userAgent configFile)
  = Returns (First.getDefaultSettings navigator_userAgent).
Proof. intros H. unfold First.getSettings. rewrite H. reflexivity. Qed.

(** In the first version too, a file without a [Window] member makes
    [getSettings] throw; and an absent [ToggleDevTools] becomes
    ["ctrl+alt+dx"], which is not the shortcut of [getDefaultSettings]. *)
Lemma First_getSettings_examples :
  fst (First.getSettings emptyObjectFile None "settings.json") = Throws TypeError
  /\ (exists result,
        fst (First.getSettings partialFile None "settings.json") = Returns result
        /\ read (read result "ShortCuts") "ToggleDevTools"
           = JSString "ctrl+alt+dx")
  /\ read (read (First.getDefaultSettings None) "ShortCuts") "ToggleDevTools"
     = JSString "ctrl+alt+d".
Proof. split; [reflexivity|]. split; [|reflexivity]. eexists. split; reflexivity. Qed.

(** *** Closed examples for the settings *)


(** A file with a window and shortcuts but no [RequestHandlers]: the record
    returned holds [undefined] for them. *)
Lemma getSettings_copies_RequestHandlers :
  exists result,
    fst (Settings.getSettings partialFile "Mozilla/5.0" "/opt/app"
           (fun s => s) (fun s _ => s) "settings.json")
    = Returns result
    /\ read result "RequestHandlers" = JSUndefined.
Proof. eexists. split; reflexivity. Qed.


(** * Further properties of the renderer *)

(** ** What a run of the continuation leaves alone *)

Section Frame.

Context {imports : Imports}.











End Frame.

(** ** Handlers that throw *)

Section Throwing.

Context {imports : Imports}.


(** X3.  [loadURL] has no [try]: when the first handler throws, the exception
    leaves [loadURL], after the history was updated (if asked for), the
    handler and the target became current, the title was set to the URL and
    the indicator was made visible. *)
Theorem first_handler_exception_leaves_loadURL (urlItem : IURLItem)
    (updateHistory : bool) (r : Renderer) (first : URLHandler)
    (rest : list URLHandler) (error : string) :
  URLHandlers r = first :: rest ->
  OriginalURL urlItem <> blankPage ->
  raises (handleURL first (URLItem.URL urlItem) (Source urlItem)) = Some error ->
  let r' := fst (loadURL urlItem updateHistory r) in
  snd (loadURL urlItem updateHistory r) = Thrown error
  /\ currentURLHandler r' = Some first
  /\ currentURLItem r' = Some urlItem
  /\ window_title (dom r') = URLItem.URL urlItem
  /\ spinner_visibility (dom r') = visible
  /\ (history r', currentHistoryItem r')
     = (if updateHistory
        then (fst (addOrUpdateItem (URLItem.URL urlItem) (history r)),
              Some (snd (addOrUpdateItem (URLItem.URL urlItem) (history r))))
        else (history r, currentHistoryItem r)).
Proof.
  intros Hchain Hblank Hraises. unfold loadURL. rewrite Hchain.
  rewrite (proj2 (String.eqb_neq _ _) Hblank).
  rewrite callHandleURL_eq, Hraises. cbn [fst snd].
  destruct updateHistory; [destruct (addOrUpdateItem _ _)|];
    repeat split; reflexivity.
Qed.

End Throwing.

(** ** Redirects that take no effect, and the end of a dispatch *)

Section Redirects.

Context {imports : Imports}.

Lemma calls_snoc_console t level message :
  calls (t ++ [Console level message]) = calls t.
Proof. rewrite calls_app. cbn. apply app_nil_r. Qed.

(** X4.  A redirect URL takes effect only when the result is [NONE] or
    [CONTINUE] and a next handler exists.  After [STOP], [ERROR] or an unknown
    code, and after any code at the last handler of the chain, the current
    target and the current handler are the ones from before, no handler is
    called and no timer is added, whatever redirect URL came with the
    result. *)
Theorem redirect_without_effect (code : Z) (redirectURL : option string)
    (r : Renderer) :
  terminal code
  \/ (exists pre h, URLHandlers r = pre ++ [h]
                    /\ NoDup (oid <$> URLHandlers r)
                    /\ currentURLHandler r = Some h) ->
  let r' := fst (doHandleURLCallback code redirectURL r) in
  currentURLItem r' = currentURLItem r
  /\ currentURLHandler r' = currentURLHandler r
  /\ timers r' = timers r
  /\ calls (trace r') = calls (trace r).
Proof.
  intros H. cbv zeta. unfold doHandleURLCallback.
  destruct (currentURLHandler r) as [current|] eqn:Hcur;
    [|repeat split; assumption].
  assert (Hnext : terminal code
                  \/ index (URLHandlers r)
                       (handlerIndexOf (URLHandlers r) (Some current) + 1)
                     = None).
  { destruct H as [H|(pre & h & Hchain & Hnd & Hh)]; [left; exact H|right].
    injection Hh as <-. rewrite Hchain in Hnd |- *.
    exact (next_handler_at pre current [] Hnd). }
  clear H. set (next := index _ _) in *.
  set (logMsg := match next with Some _ => _ | None => _ end). clearbody logMsg.
  unfold tryBlock, switchOnResult, logRedirect, proceed, currentURL.
  unfold finallyBlock, terminal in *.
  destruct (currentURLItem r) as [item|] eqn:Hitem; cbn [fmap option_fmap option_map];
    destruct (Z.eqb_spec code HandleURL_ERROR);
    destruct (Z.eqb_spec code HandleURL_NONE);
    destruct (Z.eqb_spec code HandleURL_CONTINUE);
    destruct (Z.eqb_spec code HandleURL_STOP);
    try (destruct Hnext as [[? ?]|Hnext]; [congruence|rewrite Hnext]);
    try destruct (redirectTarget redirectURL);
    cbn; unfold currentURL; rewrite ?Hitem; cbn;
    rewrite ?Hcur, ?Hitem, ?calls_app; cbn;
    rewrite ?app_nil_r; repeat split; reflexivity.
Qed.

(** One run adds an installation of the permission request handler exactly
    when it ends at the end of the chain. *)
Lemma doHandleURLCallback_installation code redirectURL r :
  installations (trace (fst (doHandleURLCallback code redirectURL r)))
  = installations (trace r)
    ++ match snd (doHandleURLCallback code redirectURL r) with
       | ReachedEndOfChain => [SetPermissionRequestHandler]
       | _ => []
       end.
Proof.
  unfold doHandleURLCallback.
  destruct (currentURLHandler r) as [current|];
    [|cbn; rewrite app_nil_r; reflexivity].
  set (next := index _ _).
  set (logMsg := match next with Some _ => _ | None => _ end). clearbody logMsg.
  unfold tryBlock, switchOnResult, logRedirect, proceed, currentURL, finallyBlock.
  destruct (currentURLItem r) as [item|] eqn:Hitem;
    cbn [fmap option_fmap option_map];
    destruct (code =? HandleURL_ERROR), (code =? HandleURL_NONE),
      (code =? HandleURL_CONTINUE), (code =? HandleURL_STOP);
    destruct next as [next|]; try destruct (redirectTarget redirectURL);
    cbn [currentURLItem console_log emit set_trace set_currentURLItem
         set_currentURLHandler fmap option_fmap option_map];
    rewrite ?Hitem; cbn [fmap option_fmap option_map];
    rewrite ?callHandleURL_eq; try destruct (raises _);
    cbn; unfold currentURL; rewrite ?Hitem; cbn; unfold installations;
    rewrite ?List.filter_app; cbn; rewrite ?app_nil_r; reflexivity.
Qed.

End Redirects.

Section DispatchEnd.

Context {imports : Imports}.

Lemma installations_snoc_console t level message :
  installations (t ++ [Console level message]) = installations t.
Proof. unfold installations. rewrite List.filter_app. cbn. apply app_nil_r. Qed.

Lemma installations_snoc_call t handler url source :
  installations (t ++ [HandleURL handler url source]) = installations t.
Proof. unfold installations. rewrite List.filter_app. cbn. apply app_nil_r. Qed.

(** The permission request handler and the indicator at the end of the
    dispatch of [run_chain]. *)
Lemma run_chain_end (rest : list URLHandler) :
  forall pre h target code redirect r fuel,
    URLHandlers r = pre ++ h :: rest ->
    NoDup (oid <$> URLHandlers r) ->
    Forall keepsContract rest ->
    currentURLHandler r = Some h ->
    currentURLItem r = Some target ->
    handleURL h (URLItem.URL target) (Source target) = reply code redirect ->
    timers r = [(code, redirect)] ->
    (length rest < fuel)%nat ->
    let r' := fst (runTimers fuel r) in
    let o := snd (dispatchFrom PAGE (h :: rest) target) in
    installations (trace r')
    = installations (trace r)
      ++ match o with Exhausted => [SetPermissionRequestHandler] | _ => [] end
    /\ spinner_visibility (dom r')
       = match o with
         | Exhausted => spinner_visibility (dom r)
         | _ => hidden
         end.
Proof.
  pose proof codes_differ as (? & ? & ? & ? & ? & ?).
  induction rest as [|next rest IH];
    intros pre h target code redirect r fuel
           Hchain Hnd Hcontract Hcur Hitem Hreply Htimers Hfuel;
    (destruct fuel as [|fuel]; [simpl in Hfuel; lia|]);
    cbv zeta; rewrite (runTimers_step _ _ _ _ _ Htimers);
    [rewrite (dispatchFrom_last _ _ _ _ _ Hreply)
    |rewrite (dispatchFrom_more _ _ _ _ _ _ _ Hreply)]; cbv zeta;
    set (r0 := set_timers [] r);
    assert (Hchain0 : URLHandlers r0 = URLHandlers r) by reflexivity;
    assert (Hcur0 : currentURLHandler r0 = Some h) by exact Hcur;
    assert (Hitem0 : currentURLItem r0 = Some target) by exact Hitem;
    pose proof (doHandleURLCallback_installation code redirect r0) as Hinst.
  - destruct (Z.eqb_spec code HandleURL_ERROR) as [->|He].
    { destruct (doHandleURLCallback_error redirect r0 h target Hcur0 Hitem0)
        as [message ->].
      rewrite runTimers_idle by reflexivity. cbn.
      rewrite installations_snoc_console, app_nil_r. split; reflexivity. }
    destruct (Z.eqb_spec code HandleURL_STOP) as [->|Hs].
    { destruct (doHandleURLCallback_stop redirect r0 h target Hcur0 Hitem0)
        as [message ->].
      rewrite runTimers_idle by reflexivity. cbn.
      rewrite installations_snoc_console, app_nil_r. split; reflexivity. }
    destruct (Z.eqb_spec code HandleURL_NONE) as [Hn|Hn];
      destruct (Z.eqb_spec code HandleURL_CONTINUE) as [Hc|Hc]; cbn [orb].
    4: { destruct (doHandleURLCallback_unknown code redirect r0 h target
                     Hcur0 Hitem0) as [message ->]; [repeat split; assumption|].
         rewrite runTimers_idle by reflexivity. cbn.
         rewrite installations_snoc_console, app_nil_r. split; reflexivity. }
    all: destruct (doHandleURLCallback_last code redirect r0 pre h target)
           as (r1 & Hrun & Hh1 & Ht1 & _ & _ & _ & _ & Hdom1);
      [exact Hchain|rewrite Hchain0; exact Hnd|exact Hcur0|exact Hitem0|tauto|].
    all: rewrite Hrun in Hinst |- *; cbn [fst snd] in Hinst.
    all: rewrite runTimers_idle by exact Ht1.
    all: cbn [fst snd]; rewrite Hinst, Hdom1; split; reflexivity.
  - destruct (Z.eqb_spec code HandleURL_ERROR) as [->|He].
    { destruct (doHandleURLCallback_error redirect r0 h target Hcur0 Hitem0)
        as [message ->].
      rewrite runTimers_idle by reflexivity. cbn.
      rewrite installations_snoc_console, app_nil_r. split; reflexivity. }
    destruct (Z.eqb_spec code HandleURL_STOP) as [->|Hs].
    { destruct (doHandleURLCallback_stop redirect r0 h target Hcur0 Hitem0)
        as [message ->].
      rewrite runTimers_idle by reflexivity. cbn.
      rewrite installations_snoc_console, app_nil_r. split; reflexivity. }
    destruct (Z.eqb_spec code HandleURL_NONE) as [Hn|Hn];
      destruct (Z.eqb_spec code HandleURL_CONTINUE) as [Hc|Hc]; cbn [orb].
    4: { destruct (doHandleURLCallback_unknown code redirect r0 h target
                     Hcur0 Hitem0) as [message ->]; [repeat split; assumption|].
         rewrite runTimers_idle by reflexivity. cbn.
         rewrite installations_snoc_console, app_nil_r. split; reflexivity. }
    all: fold (nextTarget redirect target).
    all: set (target' := nextTarget redirect target).
    all: pose proof (List.Forall_inv Hcontract) as Hnext.
    all: pose proof (List.Forall_inv_tail Hcontract) as Hrest.
    all: destruct (Hnext (URLItem.URL target') (Source target'))
           as (code' & redirect' & Hreply').
    all: destruct (doHandleURLCallback_next code redirect r0 pre h next rest
                     target)
           as (r1 & Hrun & Hh1 & Hcur1 & Hitem1 & Ht1 & _ & _ & _ & Hdom1);
      [exact Hchain|rewrite Hchain0; exact Hnd|exact Hcur0|exact Hitem0|tauto
      |fold target'; rewrite Hreply'; reflexivity|].
    all: rewrite Hrun in Hinst |- *; cbn [fst snd] in Hinst.
    all: rewrite app_nil_r in Hinst.
    all: fold target' in Hitem1, Ht1; rewrite Hreply' in Ht1; simpl in Ht1.
    all: destruct (IH (pre ++ [h]) next target' code' redirect' r1 fuel)
           as (Hinst' & Hspin');
      [rewrite Hh1, Hchain0, Hchain, <- app_assoc; reflexivity
      |rewrite Hh1, Hchain0; exact Hnd|exact Hrest|exact Hcur1|exact Hitem1
      |exact Hreply'|exact Ht1|simpl in Hfuel; lia|].
    all: destruct (runTimers fuel r1) as [r2 exits] eqn:Hrun2.
    all: cbn [fst snd] in Hinst', Hspin' |- *.
    all: rewrite Hinst', Hspin', Hinst, Hdom1; split; reflexivity.
Qed.

(** X5.  At the end of a dispatch (over a chain of distinct handlers that
    each call back once), the permission request handler has been installed,
    once, exactly when the chain was exhausted: a dispatch that a handler
    ended with [STOP], [ERROR] or an unknown code installs nothing.  The
    indicator is hidden exactly in those other cases; after an exhausted
    chain it is still showing. *)
Theorem dispatch_end (urlItem : IURLItem) (updateHistory : bool)
    (r : Renderer) (fuel : nat) :
  URLHandlers r <> [] ->
  NoDup (oid <$> URLHandlers r) ->
  Forall keepsContract (URLHandlers r) ->
  OriginalURL urlItem <> blankPage ->
  timers r = [] ->
  (length (URLHandlers r) <= fuel)%nat ->
  let r1 := fst (loadURL urlItem updateHistory r) in
  let r' := fst (runTimers fuel r1) in
  let exits := snd (runTimers fuel r1) in
  exists exit o,
    last exits = Some exit
    /\ outcome exit = Some o
    /\ installations (trace r')
       = installations (trace r)
         ++ match o with
            | Exhausted => [SetPermissionRequestHandler]
            | _ => []
            end
    /\ (spinner_visibility (dom r') = hidden <-> o <> Exhausted).
Proof.
  intros Hne Hnd Hcontract Hblank Htimers Hfuel.
  destruct (dispatch_refines urlItem updateHistory r fuel
              Hne Hnd Hcontract Hblank Htimers Hfuel)
    as (exit & _ & Hlast & Hout & _).
  destruct (URLHandlers r) as [|first rest] eqn:Hchain; [contradiction|].
  destruct (loadURL_starts urlItem updateHistory r first rest Hchain Hblank)
    as (Hh1 & Hcur1 & Hitem1 & Ht1 & Htr1 & Hvis1).
  pose proof (List.Forall_inv Hcontract) as Hfirst.
  pose proof (List.Forall_inv_tail Hcontract) as Hrest.
  destruct (Hfirst (URLItem.URL urlItem) (Source urlItem))
    as (code & redirect & Hreply).
  rewrite Hreply, Htimers in Ht1. simpl in Ht1.
  destruct (run_chain_end rest [] first urlItem code redirect
              (fst (loadURL urlItem updateHistory r)) fuel)
    as (Hinst & Hspin);
    [rewrite Hh1; exact Hchain|rewrite Hh1, Hchain; exact Hnd|exact Hrest
    |exact Hcur1|exact Hitem1|exact Hreply|exact Ht1|simpl in Hfuel; lia|].
  cbv zeta. exists exit, (snd (dispatchFrom PAGE (first :: rest) urlItem)).
  split; [exact Hlast|]. split; [exact Hout|].
  rewrite Hinst, Hspin, Htr1, installations_snoc_call, Hvis1.
  destruct (snd (dispatchFrom PAGE (first :: rest) urlItem));
    (split; [reflexivity|]); split; try discriminate; try congruence;
    intros Ho; exfalso; apply Ho; reflexivity.
Qed.

End DispatchEnd.

(** ** No handlers *)

Section NoHandlers.

Context {imports : Imports}.

(** X6.  With no handler configured nothing is ever loaded: [loadURL] only
    writes its warning, for every target and either value of
    [updateHistory], so the history is not updated either; and [goBack] and
    [goForward] still move the cursor to the neighbour, but the page shown,
    the title and the rest of the state stay as they are. *)
Theorem nothing_loads_without_handlers (r : Renderer) :
  URLHandlers r = [] ->
  let warned := console_warn "loadURL: No URL handlers are configured!" in
  (forall urlItem updateHistory,
     loadURL urlItem updateHistory r = (warned r, Normal))
  /\ (forall item target item',
        currentItem r = Some item ->
        store (history r) !! target = Some item' ->
        (Previous item = Some target ->
         goBack r = (warned (set_currentHistoryItem (Some target) r), Normal))
        /\ (Next item = Some target ->
            goForward r
            = (warned (set_currentHistoryItem (Some target) r), Normal))).
Proof.
  intros Hchain warned. split.
  - intros urlItem updateHistory. unfold loadURL. rewrite Hchain. reflexivity.
  - intros item target item' Hitem Htarget.
    split; intros Hn; unfold goBack, goForward;
      rewrite (goTo_neighbour _ r item target item' Hitem Hn Htarget);
      unfold loadURL; cbn [URLHandlers set_currentHistoryItem];
      rewrite Hchain; reflexivity.
Qed.

End NoHandlers.


(** ** Failed loads *)

Lemma encodeURI_app (s t : string) :
  encodeURI (s +:+ t) = encodeURI s +:+ encodeURI t.
Proof.
  induction s as [|c s IH]; [reflexivity|].
  change (encodeURI (String c s +:+ t))
    with (if uriUnescaped c then String c (encodeURI (s +:+ t))
          else String "%"%char
                 (String (hexDigit (nat_of_ascii c / 16))
                    (String (hexDigit (nat_of_ascii c mod 16))
                       (encodeURI (s +:+ t))))).
  rewrite IH. cbn [encodeURI].
  destruct (uriUnescaped c); reflexivity.
Qed.

(** The constant [blankPageContent] is what [encodeURI] gives for the blank
    page of the class. *)
Lemma blankPageContent_encoded :
  blankPageContent
  = encodeURI "data:text/html,<html><head></head><body></body></html>".
Proof. reflexivity. Qed.

(** The error page is never the blank page. *)
Lemma errorPageFor_not_blank validatedURL errorCode errorDescription :
  errorPageFor validatedURL errorCode errorDescription <> blankPageContent.
Proof.
  unfold errorPageFor.
  rewrite (encodeURI_app "data:text/html,<html><head></head><body>").
  rewrite (encodeURI_app "<p>Error loading page: <em>").
  change (encodeURI "<p>Error loading page: <em>")
    with "%3Cp%3EError%20loading%20page:%20%3Cem%3E".
  change blankPageContent
    with (encodeURI "data:text/html,<html><head></head><body>"
          +:+ "%3C/body%3E%3C/html%3E").
  intros H. apply String.app_inj in H.
  cbn [String.append] in H. discriminate H.
Qed.

(** X7.  When the load of the main frame fails, the error page is put into the
    web view and remembered; it differs from the blank page, so that the
    navigation event for it puts the URL of the current target into the URL
    field, not the [data:] URL of the error page and not the empty string.
    A failure in another frame only writes to the console. *)
Theorem failed_load_keeps_target_in_URL_field (validatedURL : string)
    (errorCode : Z) (errorDescription : string) (r : Renderer)
    (target : IURLItem) :
  currentURLItem r = Some target ->
  let r1 := onDidFailLoad true validatedURL errorCode errorDescription r in
  let r2 := onDidFailLoad false validatedURL errorCode errorDescription r in
  webView_src (dom r1) = errorPage r1
  /\ errorPage r1 <> blankPageContent
  /\ urlField_value (dom (fst (onDidNavigate (errorPage r1) r1)))
     = URLItem.URL target
  /\ dom r2 = dom r
  /\ errorPage r2 = errorPage r
  /\ history r2 = history r.
Proof.
  intros Hitem.
  pose proof (errorPageFor_not_blank validatedURL errorCode errorDescription)
    as Hne.
  cbv zeta. unfold onDidFailLoad.
  generalize dependent (errorPageFor validatedURL errorCode errorDescription).
  intros page Hne.
  cbn [errorPage set_errorPage set_webView_src set_dom dom webView_src].
  split; [reflexivity|]. split; [exact Hne|].
  split; [|split; [reflexivity|split; reflexivity]].
  unfold onDidNavigate.
  cbn [errorPage set_errorPage set_webView_src set_dom].
  rewrite (proj2 (String.eqb_neq page blankPageContent) Hne).
  rewrite (String.eqb_refl page).
  unfold currentURL.
  cbn [currentURLItem set_errorPage set_webView_src set_dom].
  rewrite Hitem. cbn [fmap option_fmap option_map].
  unfold updateHistoryButtons.
  destruct (historyButtonDisabled Previous _) as [back|]; [|reflexivity].
  destruct (historyButtonDisabled Next _) as [forward|]; reflexivity.
Qed.

(** ** The window *)

Section WindowProperties.

Context {imports : Imports}.

Lemma inRenderer_window f a :
  let a' := fst (inRenderer f a) in
  renderer a' = fst (f (renderer a))
  /\ snd (inRenderer f a) = snd (f (renderer a))
  /\ addressBar_display a' = addressBar_display a
  /\ reloadIssued a' = reloadIssued a
  /\ webViewScrollOffset_x a' = webViewScrollOffset_x a
  /\ webViewScrollOffset_y a' = webViewScrollOffset_y a
  /\ outbox a' = outbox a.
Proof. unfold inRenderer. destruct (f (renderer a)). repeat split. Qed.

(** The reload shortcut sets the flag and sends one message, whether the
    load that follows returns or throws. *)
Lemma reload_flag_outbox (a : Application) :
  reloadIssued (fst (reload a)) = true
  /\ outbox (fst (reload a))
     = outbox a ++ [WebView_send "IPCFromRenderer"
                      [Settings.JSString "getScrollOffset"]].
Proof.
  unfold reload. cbn [renderer set_reloadIssued post].
  destruct (currentURLItem (renderer a)) as [item|];
    [|destruct (URLHandlers (renderer a)) as [|first rest]];
    try (split; reflexivity).
  all: match goal with
       | |- context [inRenderer ?f ?b] =>
           destruct (inRenderer_window f b) as (_ & _ & _ & Hflag & _ & _ & Hout)
       end.
  all: cbv zeta in Hflag, Hout; rewrite Hflag, Hout; split; reflexivity.
Qed.

(** X8.  The reload shortcut asks the web view for its scroll offset, sets
    the reload flag and loads the current target again with
    [updateHistory = false]: the history and its cursor are never changed by
    a reload. *)
Theorem reload_keeps_history (a : Application) :
  let a' := fst (reload a) in
  history (renderer a') = history (renderer a)
  /\ currentHistoryItem (renderer a') = currentHistoryItem (renderer a)
  /\ reloadIssued a' = true
  /\ outbox a'
     = outbox a ++ [WebView_send "IPCFromRenderer"
                      [Settings.JSString "getScrollOffset"]]
  /\ (forall item, currentURLItem (renderer a) = Some item ->
        renderer a' = fst (loadURL item false (renderer a))
        /\ snd (reload a) = snd (loadURL item false (renderer a))).
Proof.
  cbv zeta. unfold reload.
  cbn [renderer set_reloadIssued post].
  destruct (currentURLItem (renderer a)) as [item|] eqn:Hitem.
  - match goal with
    | |- context [inRenderer ?f ?b] =>
        destruct (inRenderer_window f b) as (Hr & Hc & _ & Hflag & _ & _ & Hout)
    end.
    cbn [renderer] in Hr. rewrite Hr, Hc, Hflag, Hout.
    destruct (loadURL_without_history item (renderer a)) as [Hh Hcur].
    split; [exact Hh|]. split; [exact Hcur|].
    split; [reflexivity|]. split; [reflexivity|].
    intros item' [= <-]. split; reflexivity.
  - destruct (URLHandlers (renderer a)) as [|first rest] eqn:Hchain.
    + unfold inRenderer, loadURL. cbn [renderer set_reloadIssued post].
      rewrite Hchain. cbn [renderer set_renderer].
      split; [reflexivity|]. split; [reflexivity|].
      split; [reflexivity|]. split; [reflexivity|]. intros item' [=].
    + split; [reflexivity|]. split; [reflexivity|].
      split; [reflexivity|]. split; [reflexivity|]. intros item' [=].
Qed.

(** X9.  The scroll offset makes the round trip of a reload once: after the
    reload shortcut, the offset that the web view reports with
    [setScrollOffset] is the one sent back with [scrollToOffset] at the next
    [dom-ready] event, which also clears the reload flag; a further
    [dom-ready] event does nothing.  Without a reload, [dom-ready] does
    nothing at all. *)
Theorem scroll_offset_restored_once
    (newKeyboardEvent : Settings.JSValue -> Settings.JSValue -> option string)
    (x y : Settings.JSValue) (a : Application) :
  let a1 := fst (reload a) in
  let a2 := onWebViewIPCMessage newKeyboardEvent "IPCFromWebView"
              [Settings.JSString "setScrollOffset"; x; y] a1 in
  let a3 := onDOMReady a2 in
  outbox a3
  = outbox a
    ++ [WebView_send "IPCFromRenderer" [Settings.JSString "getScrollOffset"];
        WebView_send "IPCFromRenderer"
          [Settings.JSString "scrollToOffset";
           Settings.JSObject [("x", x); ("y", y)]]]
  /\ reloadIssued a3 = false
  /\ renderer a3 = renderer a1
  /\ onDOMReady a3 = a3
  /\ (reloadIssued a = false -> onDOMReady a = a).
Proof.
  cbv zeta.
  destruct (reload_flag_outbox a) as [Hflag Hout].
  generalize dependent (fst (reload a)). intros a1 Hflag Hout.
  unfold onWebViewIPCMessage, onDOMReady. cbn. rewrite Hflag. cbn.
  rewrite Hout, <- app_assoc.
  split; [reflexivity|]. split; [reflexivity|]. split; [reflexivity|].
  split; [reflexivity|]. intros ->. reflexivity.
Qed.

(** X10.  The address bar shortcut is its own inverse once the bar is
    either shown or hidden, which it is after the first use of the shortcut;
    and after the location bar shortcut the bar is not hidden, whatever its
    state was, and the URL field is focused and then selected.  Neither
    shortcut touches the renderer. *)
Theorem address_bar_shortcuts (a : Application) :
  (addressBar_display a = "" \/ addressBar_display a = "none" ->
   toggleAddressBar (toggleAddressBar a) = a)
  /\ toggleAddressBar (toggleAddressBar (toggleAddressBar a))
     = toggleAddressBar a
  /\ addressBar_display (focusLocationBar a) <> "none"
  /\ outbox (focusLocationBar a) = outbox a ++ [UrlField_focus; UrlField_select]
  /\ renderer (focusLocationBar a) = renderer a
  /\ renderer (toggleAddressBar a) = renderer a.
Proof.
  unfold toggleAddressBar, focusLocationBar.
  split; [|split; [|split; [|split; [|split]]]].
  - intros [H|H]; destruct a; cbn in *; subst; reflexivity.
  - destruct (String.eqb (addressBar_display a) "none"); reflexivity.
  - destruct (String.eqb_spec (addressBar_display a) "none") as [E|E]; cbn.
    + discriminate.
    + exact E.
  - destruct (String.eqb (addressBar_display a) "none"); cbn;
      rewrite <- app_assoc; reflexivity.
  - destruct (String.eqb (addressBar_display a) "none"); reflexivity.
  - destruct (String.eqb (addressBar_display a) "none"); reflexivity.
Qed.

(** A [new-window] event makes the renderer ask the main process for a
    window exactly when the settings allow new windows and the disposition is
    one of [default], [foreground-tab], [background-tab], [new-window] and
    [other]; the request carries the URL of the event.  In particular
    [save-to-disk] never opens a window.  Nothing else changes. *)
Theorem onNewWindow_opens_iff (disposition url : string) (a : Application) :
  let a' := onNewWindow disposition url a in
  (a' = post (IpcRenderer_send [Settings.JSString "openWindow";
                                Settings.JSString url]) a
   \/ a' = a)
  /\ (outbox a' <> outbox a
      <-> AllowNewWindows a = true /\ In disposition windowDispositions)
  /\ ~ In "save-to-disk" windowDispositions.
Proof.
  cbv zeta. unfold onNewWindow.
  assert (Hin : negb (indexOf (String.eqb disposition) windowDispositions =? -1)
                = true <-> In disposition windowDispositions).
  { pose proof (indexOf_found (String.eqb disposition) windowDispositions) as Hf.
    pose proof (indexOf_lower_bound (String.eqb disposition) windowDispositions).
    rewrite Z.gtb_ltb in Hf.
    rewrite negb_true_iff, Z.eqb_neq.
    transitivity (existsb (String.eqb disposition) windowDispositions = true).
    - rewrite <- Hf, Z.ltb_lt. lia.
    - rewrite existsb_exists. split.
      + intros (d & Hd & E). apply String.eqb_eq in E. subst. exact Hd.
      + intros Hd. exists disposition. split; [exact Hd|apply String.eqb_refl]. }
  assert (Hpost : forall c, outbox (post c a) <> outbox a).
  { intros c H. cbn in H. apply (f_equal length) in H.
    rewrite length_app in H. simpl in H. lia. }
  assert (Hsave : ~ In "save-to-disk" windowDispositions).
  { intros [H|[H|[H|[H|[H|[]]]]]]; discriminate H. }
  destruct (AllowNewWindows a) eqn:HA.
  - destruct (negb _) eqn:Hd.
    + split; [left; reflexivity|]. split; [|exact Hsave]. split.
      * intros _. split; [reflexivity|apply Hin; reflexivity].
      * intros _. apply Hpost.
    + split; [right; reflexivity|]. split; [|exact Hsave]. split.
      * intros H. contradiction H. reflexivity.
      * intros (_ & Hd'). apply Hin in Hd'. congruence.
  - split; [right; reflexivity|]. split; [|exact Hsave]. split.
    + intros H. contradiction H. reflexivity.
    + intros (H & _). discriminate H.
Qed.


End WindowProperties.

(** * Further properties of the settings *)

Lemma present_dec (v : JSValue) : {present v} + {~ present v}.
Proof.
  destruct v; try (left; split; discriminate);
    right; intros [Hu Hn]; congruence.
Qed.

Lemma Returns_inj (a b : JSValue) : Returns a = Returns b -> a = b.
Proof. congruence. Qed.

Lemma normalize_idem (v d : JSValue) :
  normalize (normalize v d) d = normalize v d.
Proof. apply normalize_cases. apply normalize_kind. Qed.

Lemma normalize_number (value : JSValue) (n : Z) :
  exists n', normalize value (JSNumber n) = JSNumber n'.
Proof.
  pose proof (normalize_kind value (JSNumber n)) as H.
  destruct (normalize value (JSNumber n)); try discriminate. eauto.
Qed.


Section SettingsProperties.

Variable requireJSONFile : string -> string + JSValue.
Variable userAgentFallback : string.
Variable APP_PATH_PKG : string.
Variable trim : string -> string.
Variable replace_APP_PATH : string -> string -> string.

Local Abbreviation getSettings :=
  (Settings.getSettings requireJSONFile userAgentFallback APP_PATH_PKG trim
                        replace_APP_PATH).
Local Abbreviation getDefaultSettings :=
  (Settings.getDefaultSettings userAgentFallback).
Local Abbreviation normalizeSettings :=
  (Settings.normalizeSettings userAgentFallback APP_PATH_PKG trim
                              replace_APP_PATH).
Local Abbreviation fieldsOf :=
  (normalizedFields userAgentFallback APP_PATH_PKG trim replace_APP_PATH).

Lemma normalizeSettings_returns_iff (settings : JSValue) :
  (exists result, normalizeSettings settings = Some result)
  <-> present (read settings "Window") /\ present (read settings "ShortCuts").
Proof.
  split.
  - intros [result H].
    destruct (present_dec (read settings "Window")) as [Hw|Hw];
      [destruct (present_dec (read settings "ShortCuts")) as [Hsc|Hsc]|].
    + split; assumption.
    + rewrite normalizeSettings_throws in H by (right; exact Hsc). discriminate.
    + rewrite normalizeSettings_throws in H by (left; exact Hw). discriminate.
  - intros [Hw Hsc].
    destruct (normalizeSettings_present userAgentFallback APP_PATH_PKG trim
                replace_APP_PATH settings Hw Hsc) as (homepage & _ & H).
    eauto.
Qed.

(** X12.  [getSettings] throws nothing but a [TypeError], and it throws
    exactly when the file was read and parsed and the parsed value lacks a
    [Window] or a [ShortCuts] member.  It writes to the console exactly when
    the file could not be read or parsed, and then it returns the
    defaults. *)
Theorem getSettings_throws_iff (configFile : string) :
  (forall error,
     fst (getSettings configFile) = Throws error
     <-> error = TypeError
         /\ exists settings,
              requireJSONFile configFile = inr settings
              /\ ~ (present (read settings "Window")
                    /\ present (read settings "ShortCuts")))
  /\ (snd (getSettings configFile) <> []
      <-> exists error, requireJSONFile configFile = inl error)
  /\ (snd (getSettings configFile) <> []
      -> fst (getSettings configFile) = Returns getDefaultSettings).
Proof.
  unfold Settings.getSettings.
  destruct (requireJSONFile configFile) as [error|settings] eqn:Hread;
    cbn [fst snd].
  - split; [|split].
    + intros e. split; [discriminate|].
      intros (_ & settings & [=] & _).
    + split; [eauto|discriminate].
    + reflexivity.
  - split; [|split].
    + intros e. pose proof (normalizeSettings_returns_iff settings) as Hiff.
      destruct (normalizeSettings settings) as [result|] eqn:Hn; cbn [result_of].
      * split; [discriminate|].
        intros (_ & settings' & [= <-] & Hno). exfalso. apply Hno, Hiff. eauto.
      * split.
        -- intros [= <-]. split; [reflexivity|]. exists settings.
           split; [reflexivity|]. intros H. apply Hiff in H as [? [=]].
        -- intros [-> _]. reflexivity.
    + split; [intros H; contradiction H; reflexivity|intros [e [=]]].
    + intros H. contradiction H. reflexivity.
Qed.




(** X14.  The settings [getSettings] makes from a file are stable: a file
    that holds them is read back as the same record, provided that trimming
    the homepage and substituting the application path a second time changes
    nothing. *)
Theorem getSettings_stable (configFile savedFile : string)
    (settings result : JSValue) :
  (forall s, let expand s := replace_APP_PATH (trim s) APP_PATH_PKG in
             expand (expand s) = expand s) ->
  requireJSONFile configFile = inr settings ->
  fst (getSettings configFile) = Returns result ->
  requireJSONFile savedFile = inr result ->
  fst (getSettings savedFile) = Returns result.
Proof.
  intros Hexpand Hread Hresult Hsaved. cbv zeta in Hexpand.
  unfold Settings.getSettings in *. rewrite Hsaved. rewrite Hread in Hresult.
  cbn [fst] in *. f_equal.
  destruct (present_dec (read settings "Window")) as [Hw|Hw];
    [|rewrite normalizeSettings_throws in Hresult by (left; exact Hw);
      discriminate].
  destruct (present_dec (read settings "ShortCuts")) as [Hsc|Hsc];
    [|rewrite normalizeSettings_throws in Hresult by (right; exact Hsc);
      discriminate].
  destruct (normalizeSettings_present userAgentFallback APP_PATH_PKG trim
              replace_APP_PATH settings Hw Hsc) as (homepage & Hhome & H).
  rewrite H in Hresult. cbn [result_of] in Hresult.
  apply Returns_inj in Hresult. subst result. clear H Hsaved Hread.
  destruct (normalize_number (read settings "Win32MenuState") 1) as [n Hm].
  rewrite Hm.
  match goal with
  | |- result_of (normalizeSettings (JSObject ?F)) = _ =>
      assert (Hw' : present (read (JSObject F) "Window"));
      [|assert (Hsc' : present (read (JSObject F) "ShortCuts"))]
  end.
  { rewrite read_other_field by discriminate. split; discriminate. }
  { rewrite read_other_field by discriminate. split; discriminate. }
  destruct (normalizeSettings_present userAgentFallback APP_PATH_PKG trim
              replace_APP_PATH _ Hw' Hsc') as (homepage' & Hhome' & H').
  rewrite H'. cbn [result_of]. f_equal. f_equal. clear H' Hw' Hsc'.
  rewrite read_other_field in Hhome' by discriminate.
  assert (Ehome : homepage' = replace_APP_PATH (trim homepage) APP_PATH_PKG).
  { change (normalize (JSString (replace_APP_PATH (trim homepage) APP_PATH_PKG))
                      Homepage_default = JSString homepage') in Hhome'.
    cbn in Hhome'. congruence. }
  subst homepage'. clear Hhome'.
  assert (Hfix : forall fields,
            read (JSObject fields) "Win32MenuState"
            = (if not_a_menu_state (JSNumber n) then JSNumber 1 else JSNumber n) ->
            fieldsOf (JSObject fields)
              (replace_APP_PATH (trim homepage) APP_PATH_PKG) = fields ->
            (if not_a_menu_state
                  (normalize (read (JSObject fields) "Win32MenuState") (JSNumber 1))
             then assign "Win32MenuState" (JSNumber 1)
                    (fieldsOf (JSObject fields)
                       (replace_APP_PATH (trim homepage) APP_PATH_PKG))
             else fieldsOf (JSObject fields)
                    (replace_APP_PATH (trim homepage) APP_PATH_PKG))
            = fields).
  { intros fields -> ->.
    destruct (not_a_menu_state (JSNumber n)) eqn:Hstate.
    - reflexivity.
    - change (normalize (JSNumber n) (JSNumber 1)) with (JSNumber n).
      rewrite Hstate. reflexivity. }
  apply Hfix; clear Hfix.
  - destruct (not_a_menu_state (JSNumber n)); [reflexivity|].
    exact Hm.
  - unfold normalizedFields.
    set (rs := read settings) in *.
    set (rw := read (rs "Window")).
    set (rsc := read (rs "ShortCuts")).
    clearbody rw rsc. clearbody rs.
    destruct (not_a_menu_state (JSNumber n)) eqn:Hstate;
      destruct (is_empty_string (rs "UserAgent")) eqn:Hua;
      cbn -[normalize];
      rewrite ?Hua, ?Hexpand, !normalize_idem;
      change (normalize (JSNumber 1) (JSNumber 1)) with (JSNumber 1);
      destruct (String.eqb userAgentFallback ""); reflexivity.
Qed.

End SettingsProperties.

(** *** The first version *)


Section FirstProperties.

Variable readJsonSync : string -> string + JSValue.
Variable navigator_userAgent : option string.



End FirstProperties.

(** * Closed examples for the further properties *)


(** X3: the first handler of the chain throws. *)
Lemma first_handler_exception_leaves_loadURL_witness :
  let r := Sample.renderer [] [Scenario.throws; Sample.stops] in
  let result := loadURL Sample.target true r in
  snd result = Thrown "Error: boom"
  /\ currentURLHandler (fst result) = Some Scenario.throws
  /\ spinner_visibility (dom (fst result)) = visible
  /\ Size (history (fst result)) = 2%nat.
Proof.
  intros r result.
  pose proof (first_handler_exception_leaves_loadURL
                Sample.target true r Scenario.throws [Sample.stops]
                "Error: boom" eq_refl ltac:(discriminate) eq_refl) as H.
  cbv zeta in H. destruct H as (He & Hc & _ & _ & Hs & Hh).
  subst result. split; [exact He|]. split; [exact Hc|]. split; [exact Hs|].
  apply (f_equal fst) in Hh. cbn [fst] in Hh. rewrite Hh.
  reflexivity.
Defined.

(** X4: a [STOP] that comes with a redirect URL. *)
Lemma redirect_without_effect_witness :
  let r := Sample.dispatching [Sample.continues; Sample.stops] in
  let r' := fst (doHandleURLCallback (imports := Sample.imports) Sample.STOP
                   (Some "http://redirected.example/") r) in
  terminal (imports := Sample.imports) Sample.STOP
  /\ currentURLItem r' = Some Sample.target
  /\ currentURLHandler r' = Some Sample.continues
  /\ calls (trace r') = calls (trace r).
Proof.
  intros r r'.
  assert (Hterminal : terminal (imports := Sample.imports) Sample.STOP)
    by (split; discriminate).
  split; [exact Hterminal|].
  pose proof (redirect_without_effect (imports := Sample.imports) Sample.STOP
                (Some "http://redirected.example/") r (or_introl Hterminal))
    as H.
  cbv zeta in H. destruct H as (Hi & Hc & _ & Ht).
  split; [exact Hi|]. split; [exact Hc|exact Ht].
Defined.

(** X5: the chain of the specification's example ends with a [STOP]. *)
Lemma dispatch_end_witness :
  let r := Sample.renderer [] [Sample.continues; Sample.stops] in
  let r' := fst (runTimers (imports := Sample.imports) 2
                   (fst (loadURL Sample.target true r))) in
  let exits := snd (runTimers (imports := Sample.imports) 2
                      (fst (loadURL Sample.target true r))) in
  exists exit o,
    last exits = Some exit
    /\ outcome exit = Some o
    /\ installations (trace r')
       = installations (trace r)
         ++ match o with
            | Exhausted => [SetPermissionRequestHandler]
            | _ => []
            end
    /\ (spinner_visibility (dom r') = hidden <-> o <> Exhausted).
Proof.
  intros r.
  apply (dispatch_end (imports := Sample.imports) Sample.target true r 2).
  - discriminate.
  - compute_done.
  - repeat constructor; intros url source; eexists _, _; reflexivity.
  - discriminate.
  - reflexivity.
  - simpl. lia.
Defined.

(** X6: the renderer before any handler is loaded. *)
Lemma nothing_loads_without_handlers_witness :
  let r := Sample.renderer [] [] in
  loadURL Sample.target true r
  = (console_warn "loadURL: No URL handlers are configured!" r, Normal).
Proof.
  intros r.
  exact (proj1 (nothing_loads_without_handlers (imports := Sample.imports) r
                  eq_refl) Sample.target true).
Defined.

(** X7: the load of the page fails after the handler has let it through. *)
Lemma failed_load_keeps_target_in_URL_field_witness :
  let r := Sample.dispatching [Sample.stops] in
  let r1 := onDidFailLoad true "http://start.example/" (-105)
              "ERR_NAME_NOT_RESOLVED" r in
  currentURLItem r = Some Sample.target
  /\ webView_src (dom r1) = errorPage r1
  /\ urlField_value (dom (fst (onDidNavigate (errorPage r1) r1)))
     = "http://start.example/".
Proof.
  intros r r1. split; [reflexivity|].
  pose proof (failed_load_keeps_target_in_URL_field "http://start.example/"
                (-105) "ERR_NAME_NOT_RESOLVED" r Sample.target eq_refl) as H.
  cbv zeta in H. destruct H as (Hsrc & _ & Hfield & _).
  split; [exact Hsrc|exact Hfield].
Defined.

(** X8: a reload while a page is shown. *)
Lemma reload_keeps_history_witness :
  let a := Scenario.window "" (Sample.dispatching [Sample.stops]) in
  let a' := fst (reload a) in
  currentURLItem (renderer a) = Some Sample.target
  /\ history (renderer a') = history (renderer a)
  /\ reloadIssued a' = true
  /\ renderer a' = fst (loadURL Sample.target false (renderer a)).
Proof.
  intros a a'.
  pose proof (reload_keeps_history a) as H.
  cbv zeta in H. destruct H as (Hh & _ & Hflag & _ & Hload).
  split; [reflexivity|]. split; [exact Hh|]. split; [exact Hflag|].
  exact (proj1 (Hload Sample.target eq_refl)).
Defined.

(** X9: a reload of the window at startup, with an offset reported. *)
Lemma scroll_offset_restored_once_witness :
  let a := Scenario.window "" (Sample.renderer [] []) in
  let a3 := onDOMReady
              (onWebViewIPCMessage (fun _ _ => None) "IPCFromWebView"
                 [JSString "setScrollOffset"; JSNumber 0; JSNumber 240]
                 (fst (reload a))) in
  reloadIssued a = false
  /\ onDOMReady a = a
  /\ reloadIssued a3 = false
  /\ onDOMReady a3 = a3.
Proof.
  intros a a3.
  pose proof (scroll_offset_restored_once
                (fun _ _ => None) (JSNumber 0) (JSNumber 240) a) as H.
  cbv zeta in H. destruct H as (_ & Hflag & _ & Hagain & Hidle).
  split; [reflexivity|]. split; [exact (Hidle eq_refl)|].
  split; [exact Hflag|exact Hagain].
Defined.

(** X10: the address bar of the window at startup is hidden. *)
Lemma address_bar_shortcuts_witness :
  let a := Scenario.window "" (Sample.renderer [] []) in
  addressBar_display a = "none"
  /\ toggleAddressBar (toggleAddressBar a) = a
  /\ addressBar_display (focusLocationBar a) <> "none".
Proof.
  intros a.
  pose proof (address_bar_shortcuts a) as (Htwice & _ & Hshown & _).
  split; [reflexivity|]. split; [exact (Htwice (or_intror eq_refl))|].
  exact Hshown.
Defined.


(** X12: a file that cannot be read, and one without a [Window] member. *)
Lemma getSettings_throws_iff_witness :
  let getSettings :=
    Settings.getSettings emptyObjectFile "Mozilla/5.0" "/opt/app"
                         (fun s => s) (fun s _ => s) in
  snd (getSettings "missing.json") <> []
  /\ fst (getSettings "missing.json")
     = Returns (Settings.getDefaultSettings "Mozilla/5.0")
  /\ fst (getSettings "settings.json") = Throws TypeError.
Proof.
  intros getSettings.
  pose proof (getSettings_throws_iff emptyObjectFile "Mozilla/5.0" "/opt/app"
                (fun s => s) (fun s _ => s)) as H.
  assert (Hlog : snd (getSettings "missing.json") <> []) by discriminate.
  split; [exact Hlog|].
  split; [exact (proj2 (proj2 (H "missing.json")) Hlog)|].
  apply (proj1 (H "settings.json")). split; [reflexivity|].
  exists (JSObject []). split; [reflexivity|].
  intros [[Hu _] _]. apply Hu. reflexivity.
Defined.


(** X14: the settings made from [settings.json], saved and read again. *)
Lemma getSettings_stable_witness :
  let getSettings :=
    Settings.getSettings Scenario.savedFiles "Mozilla/5.0" "/opt/app"
                         (fun s => s) (fun s _ => s) in
  fst (getSettings "settings.json") = Returns Scenario.savedSettings
  /\ fst (getSettings "saved.json") = Returns Scenario.savedSettings.
Proof.
  intros getSettings. split; [reflexivity|].
  exact (getSettings_stable Scenario.savedFiles "Mozilla/5.0" "/opt/app"
           (fun s => s) (fun s _ => s) "settings.json" "saved.json"
           partialSettings Scenario.savedSettings
           (fun s => eq_refl) eq_refl eq_refl eq_refl).
Defined.

